(** * BattleDoge batch transfer script: a shallow embedding and its properties

    The development follows [batch_transfer_airdrop.py]: the recipient
    parser, the fee selection, the audit logger and the transfer loop of
    [main].  Python text is a [string] whose characters are the code points
    U+0000..U+00FF; Python integers are [Z]; the ledger client (web3) is a
    record of scripted answers, and every call made to it is recorded in a
    trace. *)

From Stdlib Require Import ZArith QArith Qround Ascii.
From stdpp Require Import gmap strings list.

Open Scope Z_scope.

(** ** Results of fallible code *)

Inductive result (E A : Type) : Type :=
| Ok (a : A)
| Raise (e : E).
Arguments Ok {E A} a.
Arguments Raise {E A} e.


(** ** Python string primitives used by the script *)

Module PyStr.

Definition code (c : ascii) : N := N_of_ascii c.

(** [str.isspace] on the code points below 256. *)
Definition is_space (c : ascii) : bool :=
  let n := code c in
  ((9 <=? n) && (n <=? 13) || (28 <=? n) && (n <=? 32)
   || (n =? 133) || (n =? 160))%N.

(** Line boundaries of [str.splitlines] below 256, apart from the
    carriage return, which [splitlines] pairs with a following line feed. *)
Definition is_linebreak (c : ascii) : bool :=
  let n := code c in
  ((n =? 10) || (n =? 11) || (n =? 12) || (n =? 28) || (n =? 29)
   || (n =? 30) || (n =? 133))%N.

Definition is_cr (c : ascii) : bool := (code c =? 13)%N.
Definition is_lf (c : ascii) : bool := (code c =? 10)%N.

Definition push_char (c : ascii) (ls : list string) : list string :=
  match ls with
  | [] => [String c ""]
  | l :: ls' => String c l :: ls'
  end.

(** [raw.splitlines()]: no empty last line after a final line break. *)
Fixpoint splitlines (s : string) : list string :=
  match s with
  | "" => []
  | String c rest =>
      if is_cr c then
        match rest with
        | String c' rest' =>
            if is_lf c' then "" :: splitlines rest' else "" :: splitlines rest
        | "" => [""]
        end
      else if is_linebreak c then "" :: splitlines rest
      else push_char c (splitlines rest)
  end.

Fixpoint lstrip (s : string) : string :=
  match s with
  | "" => ""
  | String c rest => if is_space c then lstrip rest else s
  end.

Fixpoint rstrip (s : string) : string :=
  match s with
  | "" => ""
  | String c rest =>
      match rstrip rest with
      | "" => if is_space c then "" else String c ""
      | r => String c r
      end
  end.

(** [s.strip()] *)
Definition strip (s : string) : string := rstrip (lstrip s).

(** [s.startswith(c)] for a one-character prefix. *)
Definition startswith_char (c : ascii) (s : string) : bool :=
  match s with
  | "" => false
  | String c' _ => bool_decide (c' = c)
  end.

(** [c in s] for a single character. *)
Fixpoint contains_char (c : ascii) (s : string) : bool :=
  match s with
  | "" => false
  | String c' rest => bool_decide (c' = c) || contains_char c rest
  end.

(** [needle in s] *)
Fixpoint contains (needle s : string) : bool :=
  String.prefix needle s
  || match s with
     | "" => false
     | String _ rest => contains needle rest
     end.

(** [s.split(c, 1)] when [c] occurs in [s]: the text before the first
    occurrence and the text after it.  Without an occurrence [split]
    returns the one-element list, here a pair with an empty second part;
    the parser only splits lines that hold the separator. *)
Fixpoint split_once (c : ascii) (s : string) : string * string :=
  match s with
  | "" => ("", "")
  | String c' rest =>
      if bool_decide (c' = c) then ("", rest)
      else let '(a, b) := split_once c rest in (String c' a, b)
  end.

(** [s.lower()] on the code points below 256: A-Z and the Latin-1 capitals
    (U+00C0..U+00DE without the multiplication sign) move up by 32. *)
Definition lower_char (c : ascii) : ascii :=
  let n := code c in
  if ((65 <=? n) && (n <=? 90)
      || (192 <=? n) && (n <=? 222) && negb (n =? 215))%N
  then ascii_of_N (n + 32) else c.

Fixpoint lower (s : string) : string :=
  match s with
  | "" => ""
  | String c rest => String (lower_char c) (lower rest)
  end.

Definition is_digit (c : ascii) : bool :=
  let n := code c in ((48 <=? n) && (n <=? 57))%N.

Definition digit_value (c : ascii) : Z := Z.of_N (code c) - 48.

(** The digits of a decimal literal, after the first digit: [acc] is the
    value read so far, [after_digit] tells whether the previous character
    was a digit (an underscore is legal only between two digits). *)
Fixpoint int_digits (s : string) (acc : Z) (after_digit : bool) : option Z :=
  match s with
  | "" => if after_digit then Some acc else None
  | String c rest =>
      if is_digit c then int_digits rest (10 * acc + digit_value c) true
      else if bool_decide (c = "_"%char) && after_digit
           then int_digits rest acc false
      else None
  end.

(** [int(s)] in base 10: surrounding whitespace, an optional sign, then
    digits that single underscores may separate.  [None] stands for the
    [ValueError] of an invalid literal.  The interpreter's optional cap on
    the number of digits of a converted string is outside the model. *)
Definition int_of_string (s : string) : option Z :=
  match strip s with
  | "" => None
  | String c rest =>
      if bool_decide (c = "-"%char) then Z.opp <$> int_digits rest 0 false
      else if bool_decide (c = "+"%char) then int_digits rest 0 false
      else int_digits (String c rest) 0 false
  end.

End PyStr.

(** ** The recipient parser *)

(** The [ValueError]s of [parse_recipients], with the data their messages
    carry; [InvalidAddress] is the error of the address conversion and
    [InvalidIntLiteral] the one of [int()]. *)
Inductive ParseError : Type :=
| MalformedLine (idx : Z) (line : string)
| InvalidAddress (addr_str : string)
| InvalidIntLiteral (amt_str : string)
| AmountNotPositive (idx : Z) (amt : Z).

Definition Recipient : Type := string * Z.

(** What one line of the text does to the loop: nothing (it is skipped),
    one more entry, or an error. *)
Inductive LineStep : Type :=
| Skipped
| Entry (r : Recipient)
| Failed (e : ParseError).

Section Parser.

(** [Web3.to_checksum_address]: the library's address normalisation, which
    hashes the address with Keccak-256; [None] when it raises. *)
Variable to_checksum_address : string → option string.

(** The "robust checksum conversion": a second try on the lower-cased
    text when the first one raises. *)
Definition checksum_with_fallback (addr_str : string) : option string :=
  match to_checksum_address addr_str with
  | Some addr => Some addr
  | None => to_checksum_address (PyStr.lower addr_str)
  end.

(** The body of the [for] loop of [parse_recipients] for the line [line]
    with number [idx]. *)
Definition parse_line (idx : Z) (line : string) : LineStep :=
  let line := PyStr.strip line in
  if bool_decide (line = "") || PyStr.startswith_char "#" line then Skipped
  else if negb (PyStr.contains_char "," line)
  then Failed (MalformedLine idx line)
  else
    let '(p1, p2) := PyStr.split_once "," line in
    let addr_str := PyStr.strip p1 in
    let amt_str := PyStr.strip p2 in
    match checksum_with_fallback addr_str with
    | None => Failed (InvalidAddress addr_str)
    | Some addr =>
        match PyStr.int_of_string amt_str with
        | None => Failed (InvalidIntLiteral amt_str)
        | Some amt =>
            if amt <=? 0 then Failed (AmountNotPositive idx amt)
            else Entry (addr, amt)
        end
    end.

(** The loop over [enumerate(lines, start=idx)], appending to [out]. *)
Fixpoint parse_loop (idx : Z) (lines : list string) (out : list Recipient)
  : result ParseError (list Recipient) :=
  match lines with
  | [] => Ok out
  | line :: rest =>
      match parse_line idx line with
      | Skipped => parse_loop (idx + 1) rest out
      | Entry r => parse_loop (idx + 1) rest (out ++ [r])
      | Failed e => Raise e
      end
  end.

Definition parse_recipients (raw : string) : result ParseError (list Recipient) :=
  parse_loop 1 (PyStr.splitlines raw) [].

End Parser.


Definition token_units (amount_no_decimals decimals : Z) : Z :=
  amount_no_decimals * 10 ^ decimals.

(** ** Decimal numbers

    A [Decimal] is a coefficient and a power of ten, as in Python's
    [decimal] module; arithmetic rounds to the 28 significant digits of the
    default context, half to even. *)

Record Decimal : Type := { coef : Z; expo : Z }.

Module Dec.

Definition PREC : Z := 28.

(** [Decimal(n)] for an integer: exact, whatever the precision. *)
Definition of_int (n : Z) : Decimal := {| coef := n; expo := 0 |}.

Fixpoint digits_loop (fuel : nat) (n : Z) : Z :=
  match fuel with
  | O => 0
  | S fuel' => if n =? 0 then 0 else 1 + digits_loop fuel' (n / 10)
  end.

(** The number of decimal digits of [n >= 0] (0 for 0). *)
Definition num_digits (n : Z) : Z :=
  digits_loop (S (Z.to_nat (Z.log2 n))) n.

(** Drop the last [k > 0] digits of [c >= 0], rounding half to even. *)
Definition round_half_even (c k : Z) : Z :=
  let q := c / 10 ^ k in
  let r := c mod 10 ^ k in
  if 10 ^ k <? 2 * r then q + 1
  else if (2 * r =? 10 ^ k) && Z.odd q then q + 1
  else q.

(** The context's rounding of an exact result. *)
Definition round_to_context (c e : Z) : Decimal :=
  let k := num_digits (Z.abs c) - PREC in
  if k <=? 0 then {| coef := c; expo := e |}
  else {| coef := Z.sgn c * round_half_even (Z.abs c) k; expo := e + k |}.

Definition mul (a b : Decimal) : Decimal :=
  round_to_context (coef a * coef b) (expo a + expo b).

(** [int(d)]: truncation toward zero. *)
Definition to_int (d : Decimal) : Z :=
  if 0 <=? expo d then coef d * 10 ^ expo d
  else Z.quot (coef d) (10 ^ (- expo d)).

(** The rational number a [Decimal] denotes. *)
Definition value (d : Decimal) : Q :=
  if 0 <=? expo d then inject_Z (coef d * 10 ^ expo d)
  else Qmake (coef d) (Z.to_pos (10 ^ (- expo d))).

End Dec.

(** ** The ledger client *)

(** The exceptions the transfer loop tells apart: the two web3 classes it
    names, and every other [Exception]; each carries its [str()].  What is
    not an [Exception] (an interrupt from the keyboard) is outside the
    model. *)
Inductive exn : Type :=
| TimeExhausted (msg : string)
| ContractLogicError (msg : string)
| OtherException (msg : string).

Definition exn_message (e : exn) : string :=
  match e with
  | TimeExhausted msg | ContractLogicError msg | OtherException msg => msg
  end.

Definition MAX_WEI : Z := 2 ^ 256 - 1.

(** [w3.to_wei(d, "gwei")] for a [Decimal]: the library scales by 10^9
    without rounding, rejects values outside 0..2^256-1 and truncates. *)
Definition to_wei_gwei (d : Decimal) : result exn Z :=
  let wei := Dec.to_int {| coef := coef d; expo := expo d + 9 |} in
  if (coef d <? 0) || (MAX_WEI <? wei)
  then Raise (OtherException "Resulting wei value must be between 1 and 2**256 - 1")
  else Ok wei.

(** The [baseFeePerGas] entry of a block: the key may be missing, or hold
    [None]. *)
Inductive BaseFeeField : Type :=
| Absent
| Null
| Fee (v : Z).

Record Block : Type := { baseFeePerGas : BaseFeeField }.

Record Receipt : Type := {
  rc_status : Z;
  blockNumber : Z;
  gasUsed : Z
}.

(** The fee dictionary of [pick_fees]: one of two shapes. *)
Inductive FeeFields : Type :=
| EIP1559 (maxFeePerGas maxPriorityFeePerGas : Z)
| Legacy (gasPrice : Z).

Record Tx : Type := {
  tx_to : string;
  tx_amount : Z;
  tx_from : string;
  tx_nonce : Z;
  tx_chainId : Z;
  tx_gas : Z;
  tx_fees : FeeFields
}.

(** The calls the script makes to the ledger client and to the operator's
    console, in the order of the trace. *)
Inductive Call : Type :=
| CIsConnected
| CFromKey
| CName
| CSymbol
| CDecimals
| CChainId
| CBlockNumber
| CGetBalance
| CBalanceOf
| CConfirmSend
| CGetTransactionCount
| CGetBlock
| CGasPrice
| CEstimateGas (to_addr : string) (amt_units : Z)
| CBuildTransaction (tx : Tx)
| CSignTransaction (tx : Tx)
| CSendRawTransaction (raw : string)
| CWaitForReceipt (tx_hash : string)
| CProcessReceipt
| CPressEnter.

(** What the ledger and the operator answer during one pass of the transfer
    loop.  [get_block] is asked twice by [pick_fees]. *)
Record Answers : Type := {
  a_get_block : nat → result exn Block;
  a_gas_price : result exn Z;
  a_estimate_gas : result exn Z;
  a_build_transaction : result exn unit;
  a_sign_transaction : result exn string;
  a_send_raw_transaction : result exn string;
  a_wait_for_receipt : result exn Receipt;
  a_process_receipt : result exn unit;
  a_now : string;
  a_get_transaction_count : result exn Z;
  a_press_enter : result exn string
}.

(** The answers of one run: those of the preamble of [main], and those of
    every pass of the loop, by loop index. *)
Record World : Type := {
  w_is_connected : result exn bool;
  w_from_key : result exn string;
  w_name : result exn string;
  w_symbol : result exn string;
  w_decimals : result exn Z;
  w_chain_id : result exn Z;
  w_block_number : result exn Z;
  w_get_balance : result exn Z;
  w_balance_of : result exn Z;
  w_confirm : result exn string;
  w_start_nonce : result exn Z;
  w_attempt : Z → Answers
}.

(** ** Configuration *)

Definition EXPECTED_DECIMALS : Z := 18.
Definition FALLBACK_GAS_LIMIT : Z := 120000.

Record Config : Type := {
  RPC_URL : string;
  PRIVATE_KEY : string;
  TOKEN_ADDRESS : string;
  MAX_PRIORITY_FEE_GWEI : option Decimal;
  MAX_FEE_MULTIPLIER : Decimal;
  DRY_RUN : bool;
  LOG_FILE : string;
  SKIP_FIRST_N : Z;
  RECIPIENTS_RAW : string
}.

Definition LF : string := String (ascii_of_N 10) "".

(** The constants of the script as it is published. *)
Definition default_config : Config := {|
  RPC_URL := "https://rpc.mevblocker.io";
  PRIVATE_KEY := "0xPrivateKey";
  TOKEN_ADDRESS := "0x2C724d1FcA1B3D471EBAa004a054621aF85D417C";
  MAX_PRIORITY_FEE_GWEI := None;
  MAX_FEE_MULTIPLIER := {| coef := 20; expo := -1 |};
  DRY_RUN := true;
  LOG_FILE := "transfer_audit_log.csv";
  SKIP_FIRST_N := 0;
  RECIPIENTS_RAW :=
    "0x000000000000000000000000000000000000dead, 1000" +:+ LF +:+
    "0x000000000000000000000000000000000000dead, 2000"
|}.

(** ** The audit file *)

Inductive Cell : Type :=
| CellStr (s : string)
| CellInt (n : Z).

Definition Row : Type := list Cell.

Module AuditLogger.

Definition header : Row :=
  CellStr <$> ["timestamp"; "transfer_num"; "to_address"; "amount_human";
               "amount_raw"; "tx_hash"; "status"; "block_number";
               "gas_used"; "error"].

(** [os.path.exists(filepath)] *)
Definition exists_ (files : gmap string (list Row)) (filepath : string) : bool :=
  bool_decide (is_Some (files !! filepath)).

(** [open(filepath, "a")]: a missing file is created empty, an existing
    one keeps its content. *)
Definition open_append (files : gmap string (list Row)) (filepath : string)
  : gmap string (list Row) :=
  match files !! filepath with
  | Some _ => files
  | None => <[filepath := []]> files
  end.

(** [writer.writerow(row)] on a file opened for appending. *)
Definition writerow (filepath : string) (row : Row)
    (files : gmap string (list Row)) : gmap string (list Row) :=
  alter (λ rows, rows ++ [row]) filepath files.

Definition enter (filepath : string) (files : gmap string (list Row))
  : gmap string (list Row) :=
  let file_exists := exists_ files filepath in
  let files := open_append files filepath in
  if negb file_exists then writerow filepath header files else files.

(** [x or ""] for an optional string and for an optional integer. *)
Definition str_or_empty (x : option string) : Cell :=
  match x with
  | Some s => CellStr s
  | None => CellStr ""
  end.

Definition int_or_empty (x : option Z) : Cell :=
  match x with
  | Some n => if n =? 0 then CellStr "" else CellInt n
  | None => CellStr ""
  end.

Definition row (now : string) (transfer_num : Z) (to_addr : string)
    (amt_human amt_raw : Z) (tx_hash : option string) (status : string)
    (block gas_used : option Z) (error : option string) : Row :=
  [CellStr now; CellInt transfer_num; CellStr to_addr; CellInt amt_human;
   CellInt amt_raw; str_or_empty tx_hash; CellStr status;
   int_or_empty block; int_or_empty gas_used; str_or_empty error].

(** [log(...)]: one row, written at once. *)
Definition log (filepath now : string) (transfer_num : Z) (to_addr : string)
    (amt_human amt_raw : Z) (tx_hash : option string) (status : string)
    (block gas_used : option Z) (error : option string)
    (files : gmap string (list Row)) : gmap string (list Row) :=
  writerow filepath
    (row now transfer_num to_addr amt_human amt_raw tx_hash status block
       gas_used error)
    files.

(** The status column of a row. *)
Definition status_of (r : Row) : option Cell := r !! 6%nat.

End AuditLogger.

(** ** The state of a run

    The variables of [main] that the loop updates, the files, and the trace
    of calls (oldest first). *)

Record Frame : Type := {
  nonce : Z;
  succeeded : Z;
  failed : Z;
  skipped : Z;
  sent_tx_hash : option string;
  receipt : option Receipt;
  error_msg : option string;
  status : string;
  files : gmap string (list Row);
  calls : list Call
}.

Definition set_nonce (n : Z) (fr : Frame) : Frame :=
  {| nonce := n; succeeded := succeeded fr; failed := failed fr;
     skipped := skipped fr; sent_tx_hash := sent_tx_hash fr;
     receipt := receipt fr; error_msg := error_msg fr; status := status fr;
     files := files fr; calls := calls fr |}.

Definition set_succeeded (n : Z) (fr : Frame) : Frame :=
  {| nonce := nonce fr; succeeded := n; failed := failed fr;
     skipped := skipped fr; sent_tx_hash := sent_tx_hash fr;
     receipt := receipt fr; error_msg := error_msg fr; status := status fr;
     files := files fr; calls := calls fr |}.

Definition set_failed (n : Z) (fr : Frame) : Frame :=
  {| nonce := nonce fr; succeeded := succeeded fr; failed := n;
     skipped := skipped fr; sent_tx_hash := sent_tx_hash fr;
     receipt := receipt fr; error_msg := error_msg fr; status := status fr;
     files := files fr; calls := calls fr |}.

Definition set_skipped (n : Z) (fr : Frame) : Frame :=
  {| nonce := nonce fr; succeeded := succeeded fr; failed := failed fr;
     skipped := n; sent_tx_hash := sent_tx_hash fr;
     receipt := receipt fr; error_msg := error_msg fr; status := status fr;
     files := files fr; calls := calls fr |}.

Definition set_sent_tx_hash (h : option string) (fr : Frame) : Frame :=
  {| nonce := nonce fr; succeeded := succeeded fr; failed := failed fr;
     skipped := skipped fr; sent_tx_hash := h;
     receipt := receipt fr; error_msg := error_msg fr; status := status fr;
     files := files fr; calls := calls fr |}.

Definition set_receipt (r : option Receipt) (fr : Frame) : Frame :=
  {| nonce := nonce fr; succeeded := succeeded fr; failed := failed fr;
     skipped := skipped fr; sent_tx_hash := sent_tx_hash fr;
     receipt := r; error_msg := error_msg fr; status := status fr;
     files := files fr; calls := calls fr |}.

Definition set_error_msg (m : option string) (fr : Frame) : Frame :=
  {| nonce := nonce fr; succeeded := succeeded fr; failed := failed fr;
     skipped := skipped fr; sent_tx_hash := sent_tx_hash fr;
     receipt := receipt fr; error_msg := m; status := status fr;
     files := files fr; calls := calls fr |}.

Definition set_status (s : string) (fr : Frame) : Frame :=
  {| nonce := nonce fr; succeeded := succeeded fr; failed := failed fr;
     skipped := skipped fr; sent_tx_hash := sent_tx_hash fr;
     receipt := receipt fr; error_msg := error_msg fr; status := s;
     files := files fr; calls := calls fr |}.

Definition set_files (f : gmap string (list Row)) (fr : Frame) : Frame :=
  {| nonce := nonce fr; succeeded := succeeded fr; failed := failed fr;
     skipped := skipped fr; sent_tx_hash := sent_tx_hash fr;
     receipt := receipt fr; error_msg := error_msg fr; status := status fr;
     files := f; calls := calls fr |}.

Definition record_call (c : Call) (fr : Frame) : Frame :=
  {| nonce := nonce fr; succeeded := succeeded fr; failed := failed fr;
     skipped := skipped fr; sent_tx_hash := sent_tx_hash fr;
     receipt := receipt fr; error_msg := error_msg fr; status := status fr;
     files := files fr; calls := calls fr ++ [c] |}.

(** The state before [main] starts, over the files [fs]. *)
Definition initial_frame (fs : gmap string (list Row)) : Frame :=
  {| nonce := 0; succeeded := 0; failed := 0; skipped := 0;
     sent_tx_hash := None; receipt := None; error_msg := None;
     status := ""; files := fs; calls := [] |}.

(** ** Statements that may raise

    A statement maps the state to a value or a raised exception, and to the
    state it leaves: assignments made before a [raise] stay made. *)

Definition M (A : Type) : Type := Frame → result exn A * Frame.

Definition ret {A} (a : A) : M A := λ fr, (Ok a, fr).

Definition bind {A B} (m : M A) (k : A → M B) : M B :=
  λ fr, match m fr with
        | (Ok a, fr') => k a fr'
        | (Raise e, fr') => (Raise e, fr')
        end.

Notation "x <~ m ;; k" := (bind m (λ x, k))
  (at level 100, m at next level, right associativity).
Notation "m ;;; k" := (bind m (λ _, k))
  (at level 100, right associativity).

(** [try: m except Exception as e: h e] *)
Definition try_except {A} (m : M A) (h : exn → M A) : M A :=
  λ fr, match m fr with
        | (Ok a, fr') => (Ok a, fr')
        | (Raise e, fr') => h e fr'
        end.

(** A call to the outside: it is recorded, and answers as scripted. *)
Definition call {A} (c : Call) (answer : result exn A) : M A :=
  λ fr, (answer, record_call c fr).

Definition modify (f : Frame → Frame) : M unit := λ fr, (Ok tt, f fr).

Definition read {A} (f : Frame → A) : M A := λ fr, (Ok (f fr), fr).

Definition raise {A} (e : exn) : M A := λ fr, (Raise e, fr).

(** ** Fee selection *)

Definition is_eip1559 (a : Answers) (k : nat) : M bool :=
  latest <~ call CGetBlock (a_get_block a k);;
  ret (match baseFeePerGas latest with
       | Fee _ => true
       | Absent | Null => false
       end).

Definition DEFAULT_PRIORITY_FEE_GWEI : Decimal := {| coef := 15; expo := -1 |}.

Definition pick_fees (cfg : Config) (a : Answers) : M FeeFields :=
  eip <~ is_eip1559 a 0;;
  if eip : bool then
    latest <~ call CGetBlock (a_get_block a 1);;
    base <~ match baseFeePerGas latest with
            | Fee v => ret v
            | Absent => raise (OtherException "'baseFeePerGas'")
            | Null => raise (OtherException "int() argument must be a string, a bytes-like object or a real number, not 'NoneType'")
            end;;
    priority <~ (λ fr, (to_wei_gwei (default DEFAULT_PRIORITY_FEE_GWEI
                                       (MAX_PRIORITY_FEE_GWEI cfg)), fr));;
    let max_fee :=
      Dec.to_int (Dec.mul (Dec.of_int base) (MAX_FEE_MULTIPLIER cfg)) + priority in
    ret (EIP1559 max_fee priority)
  else
    gas_price <~ call CGasPrice (a_gas_price a);;
    ret (Legacy gas_price).

(** ** The transfer loop and [main] *)

(** How a run of [main] ends: with an exit status, or with an exception
    that nothing catches. *)
Inductive Outcome : Type :=
| Exit (code : Z)
| Propagated (e : exn)
| ParseFailed (e : ParseError).

Definition Main : Type := Frame → Outcome * Frame.

Definition and_then {A} (m : M A) (k : A → Main) : Main :=
  λ fr, match m fr with
        | (Ok a, fr') => k a fr'
        | (Raise e, fr') => (Propagated e, fr')
        end.

Notation "x <~~ m ;; k" := (and_then m (λ x, k))
  (at level 100, m at next level, right associativity).

Definition exit_with (code : Z) : Main := λ fr, (Exit code, fr).

Definition BROADCAST_STATUSES : list string := ["SUCCESS"; "REVERTED"; "TIMEOUT"].

Section Script.

Variable to_checksum_address : string → option string.

(** [int(est_gas * 1.15)]: the product is a binary floating-point one. *)
Variable gas_with_buffer : Z → Z.

Variable cfg : Config.
Variable w : World.

(** The body of the [try] block of one transfer. *)
Definition send_and_confirm (a : Answers) (sender to_addr : string)
    (amt_units chain_id : Z) : M unit :=
  fee_fields <~ pick_fees cfg a;;
  gas_limit <~ try_except
                 (est_gas <~ call (CEstimateGas to_addr amt_units)
                               (a_estimate_gas a);;
                  ret (gas_with_buffer est_gas))
                 (λ _, ret FALLBACK_GAS_LIMIT);;
  n <~ read nonce;;
  let tx := {| tx_to := to_addr; tx_amount := amt_units; tx_from := sender;
               tx_nonce := n; tx_chainId := chain_id; tx_gas := gas_limit;
               tx_fees := fee_fields |} in
  call (CBuildTransaction tx) (a_build_transaction a);;;
  raw <~ call (CSignTransaction tx) (a_sign_transaction a);;
  tx_hash <~ call (CSendRawTransaction raw) (a_send_raw_transaction a);;
  modify (set_sent_tx_hash (Some tx_hash));;;
  rc <~ call (CWaitForReceipt tx_hash) (a_wait_for_receipt a);;
  modify (set_receipt (Some rc));;;
  (if rc_status rc =? 1
   then modify (set_status "SUCCESS");;;
        modify (λ fr, set_succeeded (succeeded fr + 1) fr)
   else modify (set_status "REVERTED");;;
        modify (λ fr, set_failed (failed fr + 1) fr));;;
  try_except (call CProcessReceipt (a_process_receipt a)) (λ _, ret tt).

(** The three [except] clauses. *)
Definition on_exception (e : exn) : M unit :=
  match e with
  | TimeExhausted _ =>
      modify (set_status "TIMEOUT");;;
      modify (set_error_msg (Some "Receipt timeout - tx may still be pending"));;;
      modify (λ fr, set_failed (failed fr + 1) fr)
  | ContractLogicError msg =>
      modify (set_status "CONTRACT_ERROR");;;
      modify (set_error_msg (Some msg));;;
      modify (λ fr, set_failed (failed fr + 1) fr)
  | OtherException msg =>
      modify (set_status "ERROR");;;
      modify (set_error_msg (Some msg));;;
      modify (λ fr, set_failed (failed fr + 1) fr)
  end.

(** [audit.log(...)] with the current per-transfer variables. *)
Definition audit_log (now : string) (transfer_num : Z) (to_addr : string)
    (amt_human amt_raw : Z) : M unit :=
  modify (λ fr,
    set_files
      (AuditLogger.log (LOG_FILE cfg) now transfer_num to_addr amt_human
         amt_raw (sent_tx_hash fr) (status fr)
         (blockNumber <$> receipt fr) (gasUsed <$> receipt fr)
         (error_msg fr) (files fr))
      fr).

(** The "nonce handling" paragraph. *)
Definition nonce_handling (a : Answers) : M unit :=
  fr <~ read id;;
  if bool_decide (sent_tx_hash fr ≠ None)
     && bool_decide (status fr ∈ BROADCAST_STATUSES)
  then modify (set_nonce (nonce fr + 1))
  else n <~ call CGetTransactionCount (a_get_transaction_count a);;
       modify (set_nonce n).

(** One pass of the [for] loop, for the recipient at loop index [i]. *)
Definition iteration (sender : string) (chain_id decimals total i : Z)
    (r : Recipient) : M unit :=
  let '(to_addr, amt_human) := r in
  let actual_num := i + SKIP_FIRST_N cfg in
  let remaining_after := total - i in
  let amt_units := token_units amt_human decimals in
  let a := w_attempt w i in
  modify (set_sent_tx_hash None);;;
  modify (set_receipt None);;;
  modify (set_error_msg None);;;
  modify (set_status "PENDING");;;
  if DRY_RUN cfg then
    modify (set_status "DRY_RUN");;;
    audit_log (a_now a) actual_num to_addr amt_human amt_units;;;
    modify (λ fr, set_skipped (skipped fr + 1) fr);;;
    modify (λ fr, set_nonce (nonce fr + 1) fr)
  else
    try_except (send_and_confirm a sender to_addr amt_units chain_id)
      on_exception;;;
    audit_log (a_now a) actual_num to_addr amt_human amt_units;;;
    nonce_handling a;;;
    if 0 <? remaining_after
    then call CPressEnter (a_press_enter a);;; ret tt
    else ret tt.

(** [for i, (to_addr, amt_human) in enumerate(recipients, start=i)] *)
Fixpoint transfer_loop (sender : string) (chain_id decimals total i : Z)
    (recipients : list Recipient) : M unit :=
  match recipients with
  | [] => ret tt
  | r :: rest =>
      iteration sender chain_id decimals total i r;;;
      transfer_loop sender chain_id decimals total (i + 1) rest
  end.

(** [all_recipients[SKIP_FIRST_N:]] when [SKIP_FIRST_N > 0]. *)
Definition apply_skip (all_recipients : list Recipient) : list Recipient :=
  if 0 <? SKIP_FIRST_N cfg
  then drop (Z.to_nat (SKIP_FIRST_N cfg)) all_recipients
  else all_recipients.

Definition required_units (decimals : Z) (recipients : list Recipient) : Z :=
  foldr Z.add 0 ((λ r, token_units r.2 decimals) <$> recipients).

Definition main : Main :=
  if bool_decide (RPC_URL cfg = "")
     || PyStr.contains "YOUR_RPC_ENDPOINT" (RPC_URL cfg)
  then exit_with 1
  else if bool_decide (PRIVATE_KEY cfg = "")
          || PyStr.contains "YOUR_PRIVATE_KEY_HERE" (PRIVATE_KEY cfg)
  then exit_with 1
  else
    connected <~~ call CIsConnected (w_is_connected w);;
    if negb connected then exit_with 1
    else
      sender <~~ call CFromKey (w_from_key w);;
      _ <~~ try_except (call CName (w_name w))
              (λ _, ret "(name() unavailable)");;
      _ <~~ try_except (call CSymbol (w_symbol w))
              (λ _, ret "(symbol() unavailable)");;
      got <~~ try_except (d <~ call CDecimals (w_decimals w);; ret (Some d))
                (λ _, ret None);;
      match got with
      | None => exit_with 1
      | Some decimals =>
          if negb (decimals =? EXPECTED_DECIMALS) then exit_with 1
          else
            match parse_recipients to_checksum_address (RECIPIENTS_RAW cfg) with
            | Raise e => λ fr, (ParseFailed e, fr)
            | Ok all_recipients =>
                let recipients := apply_skip all_recipients in
                let total := Z.of_nat (length recipients) in
                chain_id <~~ call CChainId (w_chain_id w);;
                _ <~~ call CBlockNumber (w_block_number w);;
                _ <~~ call CGetBalance (w_get_balance w);;
                token_balance <~~ call CBalanceOf (w_balance_of w);;
                if token_balance <? required_units decimals recipients
                then exit_with 1
                else
                  confirmed <~~
                    (if DRY_RUN cfg then ret true
                     else confirm <~ call CConfirmSend (w_confirm w);;
                          ret (bool_decide (PyStr.strip confirm = "SEND")));;
                  if negb confirmed then exit_with 1
                  else
                    n <~~ call CGetTransactionCount (w_start_nonce w);;
                    _ <~~ modify (set_nonce n);;
                    _ <~~ modify (set_succeeded 0);;
                    _ <~~ modify (set_failed 0);;
                    _ <~~ modify (set_skipped 0);;
                    _ <~~ modify (λ fr, set_files
                                    (AuditLogger.enter (LOG_FILE cfg) (files fr)) fr);;
                    _ <~~ transfer_loop sender chain_id decimals total 1 recipients;;
                    λ fr, (Exit (if failed fr =? 0 then 0 else 1), fr)
            end
      end.

End Script.

(** ** Sample data for the examples *)

Definition is_hex_digit (c : ascii) : bool :=
  let n := PyStr.code c in
  (PyStr.is_digit c || (97 <=? n) && (n <=? 102) || (65 <=? n) && (n <=? 70))%N.

Definition strip_0x (s : string) : string :=
  match s with
  | String "0" (String "x" rest) | String "0" (String "X" rest) => rest
  | _ => s
  end.

Fixpoint all_chars (p : ascii → bool) (s : string) : bool :=
  match s with
  | "" => true
  | String c rest => p c && all_chars p rest
  end.

(** A stand-in for [Web3.to_checksum_address] in the examples.  It accepts
    what the library accepts, 40 hexadecimal digits after an optional [0x],
    and answers the address in lower case; the library's answer has the same
    digits, with the letter case it derives from the Keccak-256 digest. *)
Definition lowercase_address (s : string) : option string :=
  let body := strip_0x s in
  if bool_decide (String.length body = 40%nat) && all_chars is_hex_digit body
  then Some ("0x" +:+ PyStr.lower body)
  else None.

(** A stand-in for [int(est_gas * 1.15)] in the examples. *)
Definition gas_plus_15_percent (est_gas : Z) : Z := est_gas * 115 / 100.

Definition sample_receipt : Receipt :=
  {| rc_status := 1; blockNumber := 7; gasUsed := 40000 |}.

(** A ledger on a fee-market chain with base fee [base], where every step of
    a transfer goes well and the pending count reads [pending]. *)
Definition smooth_answers (base pending : Z) : Answers := {|
  a_get_block := λ _, Ok {| baseFeePerGas := Fee base |};
  a_gas_price := Ok 5;
  a_estimate_gas := Ok 50000;
  a_build_transaction := Ok tt;
  a_sign_transaction := Ok "0xf86b";
  a_send_raw_transaction := Ok "0x9fc7";
  a_wait_for_receipt := Ok sample_receipt;
  a_process_receipt := Ok tt;
  a_now := "2025-01-01T00:00:00+00:00";
  a_get_transaction_count := Ok pending;
  a_press_enter := Ok ""
|}.

(** The same ledger, when waiting for the receipt ends with [e]. *)
Definition answers_wait_raises (e : exn) (pending : Z) : Answers := {|
  a_get_block := λ _, Ok {| baseFeePerGas := Fee 10 |};
  a_gas_price := Ok 5;
  a_estimate_gas := Ok 50000;
  a_build_transaction := Ok tt;
  a_sign_transaction := Ok "0xf86b";
  a_send_raw_transaction := Ok "0x9fc7";
  a_wait_for_receipt := Raise e;
  a_process_receipt := Ok tt;
  a_now := "2025-01-01T00:00:00+00:00";
  a_get_transaction_count := Ok pending;
  a_press_enter := Ok ""
|}.

(** The same ledger, when signing fails. *)
Definition answers_sign_raises (pending : Z) : Answers := {|
  a_get_block := λ _, Ok {| baseFeePerGas := Fee 10 |};
  a_gas_price := Ok 5;
  a_estimate_gas := Ok 50000;
  a_build_transaction := Ok tt;
  a_sign_transaction := Raise (OtherException "bad key");
  a_send_raw_transaction := Ok "0x9fc7";
  a_wait_for_receipt := Ok sample_receipt;
  a_process_receipt := Ok tt;
  a_now := "2025-01-01T00:00:00+00:00";
  a_get_transaction_count := Ok pending;
  a_press_enter := Ok ""
|}.

Definition SENDER : string := "0x2c7536E3605D9C16a7a3D7b1898e529396a65c23".

(** A run in which every precondition holds; the token reports [decimals]. *)
Definition sample_world (decimals : Z) (attempt : Z → Answers) : World := {|
  w_is_connected := Ok true;
  w_from_key := Ok SENDER;
  w_name := Ok "BattleDoge";
  w_symbol := Ok "BDOGE";
  w_decimals := Ok decimals;
  w_chain_id := Ok 1;
  w_block_number := Ok 100;
  w_get_balance := Ok 5;
  w_balance_of := Ok (10 ^ 30);
  w_confirm := Ok "SEND";
  w_start_nonce := Ok 5;
  w_attempt := attempt
|}.

(** The published configuration with the private key replaced, as the
    script asks before a run. *)
Definition dry_config : Config := {|
  RPC_URL := RPC_URL default_config;
  PRIVATE_KEY :=
    "0x4c0883a69102937d6231471b5dbb6204fe5129617082792ae468d01a3f362318";
  TOKEN_ADDRESS := TOKEN_ADDRESS default_config;
  MAX_PRIORITY_FEE_GWEI := None;
  MAX_FEE_MULTIPLIER := MAX_FEE_MULTIPLIER default_config;
  DRY_RUN := true;
  LOG_FILE := LOG_FILE default_config;
  SKIP_FIRST_N := 0;
  RECIPIENTS_RAW := RECIPIENTS_RAW default_config
|}.

(** The same with [DRY_RUN] switched off. *)
Definition live_config : Config := {|
  RPC_URL := RPC_URL default_config;
  PRIVATE_KEY := PRIVATE_KEY dry_config;
  TOKEN_ADDRESS := TOKEN_ADDRESS default_config;
  MAX_PRIORITY_FEE_GWEI := None;
  MAX_FEE_MULTIPLIER := MAX_FEE_MULTIPLIER default_config;
  DRY_RUN := false;
  LOG_FILE := LOG_FILE default_config;
  SKIP_FIRST_N := 0;
  RECIPIENTS_RAW := RECIPIENTS_RAW default_config
|}.

(** ** What the parser's words mean, independently of its loop *)

(** The entry a line contributes, if any. *)
Definition entry_of_line (to_checksum_address : string → option string)
    (line : string) : option Recipient :=
  match parse_line to_checksum_address 0 line with
  | Entry r => Some r
  | Skipped | Failed _ => None
  end.

(** A line that is neither empty nor a comment, once stripped. *)
Definition data_line (line : string) : Prop :=
  PyStr.strip line ≠ ""
  ∧ PyStr.startswith_char "#" (PyStr.strip line) = false.

Definition has_comma (line : string) : Prop :=
  PyStr.contains_char "," (PyStr.strip line) = true.

Definition address_field (line : string) : string :=
  PyStr.strip (PyStr.split_once "," (PyStr.strip line)).1.

Definition amount_field (line : string) : string :=
  PyStr.strip (PyStr.split_once "," (PyStr.strip line)).2.

Definition positive_integer (s : string) : Prop :=
  ∃ n, PyStr.int_of_string s = Some n ∧ 0 < n.

(** [offends tca idx line e]: line number [idx] makes the parser fail with
    [e]. *)
Inductive offends (to_checksum_address : string → option string)
    (idx : Z) (line : string) : ParseError → Prop :=
| offends_comma :
    data_line line → ¬ has_comma line →
    offends to_checksum_address idx line (MalformedLine idx (PyStr.strip line))
| offends_address :
    data_line line → has_comma line →
    checksum_with_fallback to_checksum_address (address_field line) = None →
    offends to_checksum_address idx line (InvalidAddress (address_field line))
| offends_literal :
    data_line line → has_comma line →
    is_Some (checksum_with_fallback to_checksum_address (address_field line)) →
    PyStr.int_of_string (amount_field line) = None →
    offends to_checksum_address idx line (InvalidIntLiteral (amount_field line))
| offends_sign n :
    data_line line → has_comma line →
    is_Some (checksum_with_fallback to_checksum_address (address_field line)) →
    PyStr.int_of_string (amount_field line) = Some n → n ≤ 0 →
    offends to_checksum_address idx line (AmountNotPositive idx n).

(** [first_offence tca idx lines e]: some line offends with [e] at its line
    number, counted from [idx], and no line before it offends. *)
Definition first_offence (to_checksum_address : string → option string)
    (idx : Z) (lines : list string) (e : ParseError) : Prop :=
  ∃ (i : nat) line,
    lines !! i = Some line
    ∧ offends to_checksum_address (idx + Z.of_nat i) line e
    ∧ ∀ (j : nat) l e', (j < i)%nat → lines !! j = Some l →
        ¬ offends to_checksum_address (idx + Z.of_nat j) l e'.

(** ** The outcome of one guarded transfer, without its trace *)

Definition with_calls (cs : list Call) (fr : Frame) : Frame :=
  {| nonce := nonce fr; succeeded := succeeded fr; failed := failed fr;
     skipped := skipped fr; sent_tx_hash := sent_tx_hash fr;
     receipt := receipt fr; error_msg := error_msg fr; status := status fr;
     files := files fr; calls := cs |}.

(** The variables after the [except] clause for [e]. *)
Definition after_exception (e : exn) (fr : Frame) : Frame :=
  (on_exception e fr).2.

(** The variables after a receipt [rc] for the transaction [h]. *)
Definition after_receipt (h : string) (rc : Receipt) (fr : Frame) : Frame :=
  let fr := set_receipt (Some rc) (set_sent_tx_hash (Some h) fr) in
  if rc_status rc =? 1
  then set_succeeded (succeeded fr + 1) (set_status "SUCCESS" fr)
  else set_failed (failed fr + 1) (set_status "REVERTED" fr).

(** The variables after the [try] statement of one transfer, read off the
    ledger's answers: the first step that raises decides. *)
Definition attempt_result (cfg : Config) (a : Answers) (fr : Frame) : Frame :=
  match (pick_fees cfg a fr).1 with
  | Raise e => after_exception e fr
  | Ok _ =>
      match a_build_transaction a with
      | Raise e => after_exception e fr
      | Ok _ =>
          match a_sign_transaction a with
          | Raise e => after_exception e fr
          | Ok _ =>
              match a_send_raw_transaction a with
              | Raise e => after_exception e fr
              | Ok h =>
                  match a_wait_for_receipt a with
                  | Raise e => after_exception e (set_sent_tx_hash (Some h) fr)
                  | Ok rc => after_receipt h rc fr
                  end
              end
          end
      end
  end.

(** The per-transfer variables as each pass of the loop initialises them. *)
Definition fresh_transfer (fr : Frame) : Frame :=
  set_status "PENDING"
    (set_error_msg None (set_receipt None (set_sent_tx_hash None fr))).

(** [rows] written one after the other to the file [filepath]. *)
Definition append_rows (filepath : string) (rows : list Row)
    (fs : gmap string (list Row)) : gmap string (list Row) :=
  alter (λ old, old ++ rows) filepath fs.

(** The state in which [main] enters the loop: starting nonce [n], counters
    at zero, the audit file opened, and the calls [cs] made so far. *)
Definition loop_start (cfg : Config) (n : Z) (cs : list Call)
    (fs : gmap string (list Row)) : Frame :=
  {| nonce := n; succeeded := 0; failed := 0; skipped := 0;
     sent_tx_hash := None; receipt := None; error_msg := None;
     status := ""; files := AuditLogger.enter (LOG_FILE cfg) fs; calls := cs |}.

(** The calls that estimate gas, sign or broadcast. *)
Definition signs_or_broadcasts (c : Call) : bool :=
  match c with
  | CEstimateGas _ _ | CSignTransaction _ | CSendRawTransaction _ => true
  | _ => false
  end.

(** The statuses the loop writes. *)
Definition WRITTEN_STATUSES : list string :=
  ["DRY_RUN"; "SUCCESS"; "REVERTED"; "TIMEOUT"; "CONTRACT_ERROR"; "ERROR"].

(** The statuses the specification lists. *)
Definition SPECIFIED_STATUSES : list string :=
  ["SIMULATED"; "SUCCESS"; "REVERTED"; "TIMEOUT"; "CONTRACT_ERROR"; "ERROR"].

(** What one pass does to the counters: exactly one of them grows, by 1. *)
Definition one_counter_up (fr fr' : Frame) : Prop :=
  (succeeded fr' = succeeded fr + 1 ∧ failed fr' = failed fr
   ∧ skipped fr' = skipped fr)
  ∨ (succeeded fr' = succeeded fr ∧ failed fr' = failed fr + 1
     ∧ skipped fr' = skipped fr)
  ∨ (succeeded fr' = succeeded fr ∧ failed fr' = failed fr
     ∧ skipped fr' = skipped fr + 1).

(** What a written row is: its status is one the loop writes, and it is
    [DRY_RUN] exactly in dry-run mode. *)
Definition row_written (cfg : Config) (r : Row) : Prop :=
  ∃ st, AuditLogger.status_of r = Some (CellStr st)
        ∧ st ∈ WRITTEN_STATUSES
        ∧ (DRY_RUN cfg = true ↔ st = "DRY_RUN").

(** The calls of the preamble of [main]: none of them belongs to a
    transfer. *)
Definition preamble_call (c : Call) : bool :=
  match c with
  | CIsConnected | CFromKey | CName | CSymbol | CDecimals | CChainId
  | CBlockNumber | CGetBalance | CBalanceOf | CConfirmSend
  | CGetTransactionCount => true
  | _ => false
  end.

(** ** The trace of one guarded transfer *)

(** The calls [pick_fees] makes, read off the answers: the latest block, and
    then the block again or the gas price. *)
Definition fee_calls (a : Answers) : list Call :=
  match a_get_block a 0%nat with
  | Raise _ => [CGetBlock]
  | Ok b =>
      match baseFeePerGas b with
      | Fee _ => [CGetBlock; CGetBlock]
      | Absent | Null => [CGetBlock; CGasPrice]
      end
  end.

(** The transaction one transfer builds, for the fee fields [ff]. *)
Definition attempt_tx (gas_with_buffer : Z → Z) (a : Answers)
    (sender to_addr : string) (amt_units chain_id n : Z) (ff : FeeFields) : Tx :=
  {| tx_to := to_addr; tx_amount := amt_units; tx_from := sender;
     tx_nonce := n; tx_chainId := chain_id;
     tx_gas := match a_estimate_gas a with
               | Ok est_gas => gas_with_buffer est_gas
               | Raise _ => FALLBACK_GAS_LIMIT
               end;
     tx_fees := ff |}.

(** The calls of the [try] statement of one transfer, read off the answers:
    the statement stops at the first step that raises, the gas estimate
    apart. *)
Definition attempt_calls (gas_with_buffer : Z → Z) (cfg : Config) (a : Answers)
    (sender to_addr : string) (amt_units chain_id : Z) (fr : Frame) : list Call :=
  fee_calls a ++
  match (pick_fees cfg a fr).1 with
  | Raise _ => []
  | Ok ff =>
      let tx := attempt_tx gas_with_buffer a sender to_addr amt_units chain_id
                  (nonce fr) ff in
      [CEstimateGas to_addr amt_units; CBuildTransaction tx] ++
      match a_build_transaction a with
      | Raise _ => []
      | Ok _ =>
          [CSignTransaction tx] ++
          match a_sign_transaction a with
          | Raise _ => []
          | Ok raw =>
              [CSendRawTransaction raw] ++
              match a_send_raw_transaction a with
              | Raise _ => []
              | Ok h =>
                  [CWaitForReceipt h] ++
                  match a_wait_for_receipt a with
                  | Raise _ => []
                  | Ok _ => [CProcessReceipt]
                  end
              end
          end
      end
  end.

Definition is_broadcast (c : Call) : bool :=
  match c with
  | CSendRawTransaction _ => true
  | _ => false
  end.

(** ** What a row says *)

(** The row is the one of recipient [r], numbered [num]: its columns
    [transfer_num], [to_address], [amount_human] and [amount_raw], and as
    many cells as the header. *)
Definition row_for (num : Z) (r : Recipient) (decimals : Z) (row : Row) : Prop :=
  row !! 1%nat = Some (CellInt num)
  ∧ row !! 2%nat = Some (CellStr r.1)
  ∧ row !! 3%nat = Some (CellInt r.2)
  ∧ row !! 4%nat = Some (CellInt (token_units r.2 decimals))
  ∧ length row = length AuditLogger.header.

(** The statuses that leave [failed] alone, and those that count. *)
Definition PASSED_STATUSES : list string := ["SUCCESS"; "DRY_RUN"].
Definition FAILED_STATUSES : list string :=
  ["REVERTED"; "TIMEOUT"; "CONTRACT_ERROR"; "ERROR"].

Definition row_passed (row : Row) : Prop :=
  ∃ st, AuditLogger.status_of row = Some (CellStr st) ∧ st ∈ PASSED_STATUSES.

(** The ledger takes the transfer as far as a receipt or a receipt timeout. *)
Definition consumes_nonce (cfg : Config) (a : Answers) : Prop :=
  (∃ ff, (pick_fees cfg a (initial_frame ∅)).1 = Ok ff)
  ∧ (∃ u, a_build_transaction a = Ok u)
  ∧ (∃ raw, a_sign_transaction a = Ok raw)
  ∧ (∃ h, a_send_raw_transaction a = Ok h)
  ∧ match a_wait_for_receipt a with
    | Ok _ | Raise (TimeExhausted _) => True
    | Raise _ => False
    end.

(** The sum of the amounts, [sum(a for _, a in recipients)]. *)
Definition total_tokens (recipients : list Recipient) : Z :=
  foldr Z.add 0 (snd <$> recipients).

(** A ledger on a chain without base fee, where every step goes well. *)
Definition legacy_answers (gas_price pending : Z) : Answers := {|
  a_get_block := λ _, Ok {| baseFeePerGas := Absent |};
  a_gas_price := Ok gas_price;
  a_estimate_gas := Ok 50000;
  a_build_transaction := Ok tt;
  a_sign_transaction := Ok "0xf86b";
  a_send_raw_transaction := Ok "0x9fc7";
  a_wait_for_receipt := Ok sample_receipt;
  a_process_receipt := Ok tt;
  a_now := "2025-01-01T00:00:00+00:00";
  a_get_transaction_count := Ok pending;
  a_press_enter := Ok ""
|}.

(** A ledger whose base fee disappears between the two reads of the block. *)
Definition answers_fee_vanishes : Answers := {|
  a_get_block := λ k, match k with
                      | O => Ok {| baseFeePerGas := Fee 10 |}
                      | S _ => Ok {| baseFeePerGas := Null |}
                      end;
  a_gas_price := Ok 5;
  a_estimate_gas := Ok 50000;
  a_build_transaction := Ok tt;
  a_sign_transaction := Ok "0xf86b";
  a_send_raw_transaction := Ok "0x9fc7";
  a_wait_for_receipt := Ok sample_receipt;
  a_process_receipt := Ok tt;
  a_now := "2025-01-01T00:00:00+00:00";
  a_get_transaction_count := Ok 5;
  a_press_enter := Ok ""
|}.

(** A fee-market ledger where the gas estimate fails and the rest goes
    well. *)
Definition answers_estimate_raises : Answers := {|
  a_get_block := λ _, Ok {| baseFeePerGas := Fee 10 |};
  a_gas_price := Ok 5;
  a_estimate_gas := Raise (ContractLogicError "execution reverted");
  a_build_transaction := Ok tt;
  a_sign_transaction := Ok "0xf86b";
  a_send_raw_transaction := Ok "0x9fc7";
  a_wait_for_receipt := Ok sample_receipt;
  a_process_receipt := Ok tt;
  a_now := "2025-01-01T00:00:00+00:00";
  a_get_transaction_count := Ok 5;
  a_press_enter := Ok ""
|}.

(** The ledger takes the transfer to a receipt whose status is 1. *)
Definition confirmed (cfg : Config) (a : Answers) : Prop :=
  (∃ ff, (pick_fees cfg a (initial_frame ∅)).1 = Ok ff)
  ∧ (∃ u, a_build_transaction a = Ok u)
  ∧ (∃ raw, a_sign_transaction a = Ok raw)
  ∧ (∃ h, a_send_raw_transaction a = Ok h)
  ∧ (∃ rc, a_wait_for_receipt a = Ok rc ∧ rc_status rc = 1).

(** The run over the published list, resumed after the first recipient. *)
Definition resumed_config : Config := {|
  RPC_URL := RPC_URL default_config;
  PRIVATE_KEY := PRIVATE_KEY dry_config;
  TOKEN_ADDRESS := TOKEN_ADDRESS default_config;
  MAX_PRIORITY_FEE_GWEI := None;
  MAX_FEE_MULTIPLIER := MAX_FEE_MULTIPLIER default_config;
  DRY_RUN := false;
  LOG_FILE := LOG_FILE default_config;
  SKIP_FIRST_N := 1;
  RECIPIENTS_RAW := RECIPIENTS_RAW default_config
|}.

(** Every transfer fails at its first step, the rest of the ledger answers. *)
Definition answers_fee_query_down : Answers := {|
  a_get_block := λ _, Raise (OtherException "connection refused");
  a_gas_price := Raise (OtherException "connection refused");
  a_estimate_gas := Raise (OtherException "connection refused");
  a_build_transaction := Raise (OtherException "connection refused");
  a_sign_transaction := Raise (OtherException "connection refused");
  a_send_raw_transaction := Raise (OtherException "connection refused");
  a_wait_for_receipt := Raise (TimeExhausted "300 seconds");
  a_process_receipt := Raise (OtherException "connection refused");
  a_now := "2025-01-01T00:00:00+00:00";
  a_get_transaction_count := Ok 5;
  a_press_enter := Ok ""
|}.

(** A ledger where every step of a transfer goes well, but the prompt
    between two transfers finds the standard input closed. *)
Definition answers_prompt_raises (pending : Z) : Answers := {|
  a_get_block := λ _, Ok {| baseFeePerGas := Fee 10 |};
  a_gas_price := Ok 5;
  a_estimate_gas := Ok 50000;
  a_build_transaction := Ok tt;
  a_sign_transaction := Ok "0xf86b";
  a_send_raw_transaction := Ok "0x9fc7";
  a_wait_for_receipt := Ok sample_receipt;
  a_process_receipt := Ok tt;
  a_now := "2025-01-01T00:00:00+00:00";
  a_get_transaction_count := Ok pending;
  a_press_enter := Raise (OtherException "EOF when reading a line")
|}.

(** * Properties *)

(** ** The parser *)

Section ParserFacts.

Variable tca : string → option string.

Lemma parse_line_entry idx idx' line r :
  parse_line tca idx line = Entry r →
  parse_line tca idx' line = Entry r ∧ 0 < r.2.
Proof.
  unfold parse_line. intros H.
  repeat case_match; simplify_eq/=; split; (reflexivity || lia).
Qed.

Lemma parse_line_skipped idx idx' line :
  parse_line tca idx line = Skipped → parse_line tca idx' line = Skipped.
Proof.
  unfold parse_line. intros H. repeat case_match; simplify_eq/=; reflexivity.
Qed.

Lemma parse_loop_ok lines : ∀ idx out res,
  parse_loop tca idx lines out = Ok res →
  res = out ++ omap (entry_of_line tca) lines.
Proof.
  induction lines as [|line rest IH]; intros idx out res H; simpl in H.
  - simplify_eq. by rewrite app_nil_r.
  - unfold entry_of_line at 1. simpl.
    destruct (parse_line tca idx line) as [|r|e] eqn:Hl; [| |done].
    + rewrite (parse_line_skipped _ 0 _ Hl). fold (entry_of_line tca).
      by apply IH in H.
    + destruct (parse_line_entry _ 0 _ _ Hl) as [-> _].
      apply IH in H. fold (entry_of_line tca). by rewrite H, <- app_assoc.
Qed.

Lemma entry_of_line_positive line r :
  entry_of_line tca line = Some r → 0 < r.2.
Proof.
  unfold entry_of_line. destruct (parse_line tca 0 line) eqn:Hl; [done| |done].
  intros ?; simplify_eq. by destruct (parse_line_entry _ 0 _ _ Hl).
Qed.

Lemma omap_entries_positive lines :
  Forall (λ r : Recipient, 0 < r.2) (omap (entry_of_line tca) lines).
Proof.
  induction lines as [|line rest IH]; simpl; [constructor|].
  destruct (entry_of_line tca line) eqn:He; [|done].
  constructor; [by eapply entry_of_line_positive | done].
Qed.

Lemma parse_line_failed_iff idx line e :
  parse_line tca idx line = Failed e ↔ offends tca idx line e.
Proof.
  unfold parse_line. split.
  - intros H.
    destruct (bool_decide (PyStr.strip line = "")) eqn:Hempty; [done|].
    destruct (PyStr.startswith_char "#" (PyStr.strip line)) eqn:Hhash; [done|].
    apply bool_decide_eq_false in Hempty.
    assert (data_line line) as Hdata by done.
    simpl in H.
    destruct (PyStr.contains_char "," (PyStr.strip line)) eqn:Hcomma; simpl in H.
    + destruct (PyStr.split_once "," (PyStr.strip line)) as [p1 p2] eqn:Hsplit.
      assert (address_field line = PyStr.strip p1) as Ha
        by (unfold address_field; by rewrite Hsplit).
      assert (amount_field line = PyStr.strip p2) as Hm
        by (unfold amount_field; by rewrite Hsplit).
      rewrite <- Ha, <- Hm in H.
      destruct (checksum_with_fallback tca (address_field line)) eqn:Hc.
      * destruct (PyStr.int_of_string (amount_field line)) as [n|] eqn:Hint.
        -- destruct (n <=? 0) eqn:Hn; [|done]. simplify_eq.
           eapply offends_sign; eauto. lia.
        -- simplify_eq. eapply offends_literal; eauto.
      * simplify_eq. by apply offends_address.
    + simplify_eq. apply offends_comma; [done|].
      unfold has_comma. by rewrite Hcomma.
  - intros Hoff.
    assert (∀ b : bool, b ≠ true → b = false) as Hnt by (by intros []).
    destruct Hoff as [[Hne Hhash] Hc|[Hne Hhash] Hc Ha|[Hne Hhash] Hc [x Ha] Hi
                     |n [Hne Hhash] Hc [x Ha] Hi Hn];
      rewrite (bool_decide_eq_false_2 _ Hne), Hhash; simpl.
    + apply Hnt in Hc. by rewrite Hc.
    + rewrite Hc. simpl. unfold address_field in *.
      destruct (PyStr.split_once "," (PyStr.strip line)) as [p1 p2].
      simpl in *. by rewrite Ha.
    + rewrite Hc. simpl. unfold address_field, amount_field in *.
      destruct (PyStr.split_once "," (PyStr.strip line)) as [p1 p2].
      simpl in *. by rewrite Ha, Hi.
    + rewrite Hc. simpl. unfold address_field, amount_field in *.
      destruct (PyStr.split_once "," (PyStr.strip line)) as [p1 p2].
      simpl in *. rewrite Ha, Hi.
      by rewrite (proj2 (Z.leb_le n 0) Hn).
Qed.

Lemma first_offence_here idx line rest e :
  offends tca idx line e → first_offence tca idx (line :: rest) e.
Proof.
  intros Hoff. exists 0%nat, line. split; [done|]. split.
  - by rewrite Z.add_0_r.
  - intros j ? ? Hj. lia.
Qed.

Lemma first_offence_later idx line rest e :
  (∀ e', ¬ offends tca idx line e') →
  first_offence tca idx (line :: rest) e ↔ first_offence tca (idx + 1) rest e.
Proof.
  intros Hpass. split.
  - intros ([|i] & l & Hi & Hoff & Hbefore).
    + simpl in Hi. simplify_eq. rewrite Z.add_0_r in Hoff. by destruct (Hpass e).
    + exists i, l. split; [done|]. split.
      { replace (idx + 1 + Z.of_nat i) with (idx + Z.of_nat (S i)) by lia. done. }
      intros j l' e' Hj Hlk.
      replace (idx + 1 + Z.of_nat j) with (idx + Z.of_nat (S j)) by lia.
      apply Hbefore; [lia | done].
  - intros (i & l & Hi & Hoff & Hbefore). exists (S i), l.
    split; [done|]. split.
    { replace (idx + Z.of_nat (S i)) with (idx + 1 + Z.of_nat i) by lia. done. }
    intros [|j] l' e' Hj Hlk.
    + simpl in Hlk. simplify_eq. rewrite Z.add_0_r. apply Hpass.
    + replace (idx + Z.of_nat (S j)) with (idx + 1 + Z.of_nat j) by lia.
      apply Hbefore; [lia | done].
Qed.

(** The loop fails with [e] exactly when [e] is the first offence. *)
Lemma parse_loop_raise lines : ∀ idx out e,
  parse_loop tca idx lines out = Raise e ↔ first_offence tca idx lines e.
Proof.
  induction lines as [|line rest IH]; intros idx out e; simpl.
  - split; [done|]. by intros (i & l & Hl & _).
  - destruct (parse_line tca idx line) as [|r|e0] eqn:Hl.
    + rewrite IH. symmetry. apply first_offence_later.
      intros e' Hoff. apply parse_line_failed_iff in Hoff. congruence.
    + rewrite IH. symmetry. apply first_offence_later.
      intros e' Hoff. apply parse_line_failed_iff in Hoff. congruence.
    + apply parse_line_failed_iff in Hl. split.
      * intros ?; simplify_eq. by apply first_offence_here.
      * intros ([|i] & l & Hi & Hoff & Hbefore).
        -- simpl in Hi. simplify_eq. rewrite Z.add_0_r in Hoff.
           apply parse_line_failed_iff in Hoff, Hl. congruence.
        -- exfalso. eapply (Hbefore 0%nat line e0); [lia|done|].
           by rewrite Z.add_0_r.
Qed.

Lemma parse_loop_ok_clean lines : ∀ idx out res,
  parse_loop tca idx lines out = Ok res →
  ∀ (i : nat) line e, lines !! i = Some line →
    ¬ offends tca (idx + Z.of_nat i) line e.
Proof.
  induction lines as [|line rest IH]; intros idx out res H i l e Hi Hoff;
    [done|].
  simpl in H. destruct i as [|i]; simpl in Hi.
  - simplify_eq. rewrite Z.add_0_r in Hoff.
    apply parse_line_failed_iff in Hoff. by rewrite Hoff in H.
  - replace (idx + Z.of_nat (S i)) with (idx + 1 + Z.of_nat i) in Hoff by lia.
    destruct (parse_line tca idx line); [| |done];
      by eapply (IH _ _ _ H i l e).
Qed.

End ParserFacts.

(** C7: when the parser accepts a text, the entries it returns are the
    entries of the lines that carry one, in the order of the lines, and every
    amount is strictly positive. *)
Theorem parse_recipients_keeps_order tca raw out :
  parse_recipients tca raw = Ok out →
  out = omap (entry_of_line tca) (PyStr.splitlines raw)
  ∧ Forall (λ r : Recipient, 0 < r.2) out.
Proof.
  intros H. apply parse_loop_ok in H. simpl in H. subst out.
  split; [done | apply omap_entries_positive].
Qed.

Lemma parse_recipients_keeps_order_witness :
  parse_recipients lowercase_address (RECIPIENTS_RAW default_config)
  = Ok [("0x000000000000000000000000000000000000dead", 1000);
        ("0x000000000000000000000000000000000000dead", 2000)]
  ∧ Forall (λ r : Recipient, 0 < r.2)
      [("0x000000000000000000000000000000000000dead", 1000);
       ("0x000000000000000000000000000000000000dead", 2000)].
Proof.
  split; [vm_compute; reflexivity|].
  apply (parse_recipients_keeps_order lowercase_address
           (RECIPIENTS_RAW default_config)).
  vm_compute; reflexivity.
Defined.

(** C8, as stated, fails: a line with a comma and a positive integer amount
    still makes the parser fail when its address is rejected. *)
Lemma parse_recipients_rejects_address :
  PyStr.splitlines "not-an-address, 5" = ["not-an-address, 5"]
  ∧ data_line "not-an-address, 5"
  ∧ has_comma "not-an-address, 5"
  ∧ positive_integer (amount_field "not-an-address, 5")
  ∧ parse_recipients lowercase_address "not-an-address, 5"
    = Raise (InvalidAddress "not-an-address").
Proof.
  split; [vm_compute; reflexivity|].
  split; [split; [vm_compute; discriminate | vm_compute; reflexivity]|].
  split; [vm_compute; reflexivity|].
  split; [exists 5; split; [vm_compute; reflexivity | lia]|].
  vm_compute; reflexivity.
Qed.

(** C8, amended: the parser fails at the first line that offends, with the
    error of that line: a malformed-line error carrying the 1-based line
    number and the stripped text when the line is neither empty nor a comment
    and has no comma; the address error when the address is rejected as
    written and in lower case; an invalid-amount error when the amount field
    is not an integer literal or is not positive.  It returns a list exactly
    when no line offends. *)
Theorem parse_recipients_first_offence tca raw :
  (∀ e, parse_recipients tca raw = Raise e
        ↔ first_offence tca 1 (PyStr.splitlines raw) e)
  ∧ ((∃ out, parse_recipients tca raw = Ok out)
     ↔ ∀ (i : nat) line e, PyStr.splitlines raw !! i = Some line →
         ¬ offends tca (1 + Z.of_nat i) line e).
Proof.
  assert (∀ e, parse_recipients tca raw = Raise e
               ↔ first_offence tca 1 (PyStr.splitlines raw) e) as Hraise
    by (intros e; apply parse_loop_raise).
  split; [exact Hraise|]. split.
  - intros [out Hok] i line e Hi.
    by apply (parse_loop_ok_clean tca _ _ _ _ Hok).
  - intros Hnone. destruct (parse_recipients tca raw) as [out|e] eqn:Hp; [eauto|].
    destruct (proj1 (Hraise e) eq_refl) as (i & line & Hi & Hoff & _).
    by destruct (Hnone i line e Hi).
Qed.

(** ** The audit file *)

Lemma audit_enter_lookup (fs : gmap string (list Row)) (p : string) :
  AuditLogger.enter p fs !! p
  = Some (match fs !! p with
          | None => [AuditLogger.header]
          | Some prior => prior
          end).
Proof.
  unfold AuditLogger.enter, AuditLogger.exists_, AuditLogger.open_append,
    AuditLogger.writerow.
  destruct (fs !! p) as [prior|] eqn:Hp.
  - rewrite bool_decide_eq_true_2 by eauto. done.
  - rewrite bool_decide_eq_false_2 by (by intros [? ?]). simpl.
    rewrite lookup_alter_eq, lookup_insert_eq. done.
Qed.

(** C9: entering the logger writes the header exactly when the file is
    missing, so entering again writes nothing; on an existing file the rows
    already there stay as they are, in their order, and [log] puts its row
    after them, also after the file is entered again; other files are left
    alone. *)
Theorem audit_reopen_keeps_rows (fs : gmap string (list Row)) (p now : string)
    (transfer_num : Z) (to_addr : string) (amt_human amt_raw : Z)
    (tx_hash : option string) (st : string) (block gas_used : option Z)
    (error : option string) :
  let prior := match fs !! p with
               | None => [AuditLogger.header]
               | Some rows => rows
               end in
  let logged := AuditLogger.log p now transfer_num to_addr amt_human amt_raw
                  tx_hash st block gas_used error (AuditLogger.enter p fs) in
  AuditLogger.enter p fs !! p = Some prior
  ∧ AuditLogger.enter p (AuditLogger.enter p fs) = AuditLogger.enter p fs
  ∧ logged !! p
    = Some (prior ++ [AuditLogger.row now transfer_num to_addr amt_human
                        amt_raw tx_hash st block gas_used error])
  ∧ AuditLogger.enter p logged = logged
  ∧ ∀ q, q ≠ p → logged !! q = fs !! q.
Proof.
  intros prior logged. subst prior logged. unfold AuditLogger.log.
  generalize (AuditLogger.row now transfer_num to_addr amt_human amt_raw
                tx_hash st block gas_used error).
  intros r.
  assert (AuditLogger.enter p fs !! p
          = Some (match fs !! p with
                  | None => [AuditLogger.header]
                  | Some rows => rows
                  end)) as Henter by apply audit_enter_lookup.
  assert (∀ m : gmap string (list Row), is_Some (m !! p) →
            AuditLogger.enter p m = m) as Hexisting.
  { intros m [rows Hm].
    unfold AuditLogger.enter, AuditLogger.exists_, AuditLogger.open_append.
    rewrite Hm. rewrite bool_decide_eq_true_2 by eauto. done. }
  assert (AuditLogger.writerow p r (AuditLogger.enter p fs) !! p
          = Some (match fs !! p with
                  | None => [AuditLogger.header]
                  | Some rows => rows
                  end ++ [r])) as Hrow.
  { unfold AuditLogger.writerow at 1. rewrite lookup_alter_eq, Henter. done. }
  split; [exact Henter|].
  split; [apply Hexisting; rewrite Henter; eauto|].
  split; [exact Hrow|].
  split; [apply Hexisting; rewrite Hrow; eauto|].
  intros q Hq. unfold AuditLogger.writerow.
  rewrite lookup_alter_ne by done.
  unfold AuditLogger.enter, AuditLogger.exists_, AuditLogger.open_append,
    AuditLogger.writerow.
  destruct (fs !! p) as [prior|] eqn:Hp.
  - rewrite bool_decide_eq_true_2 by eauto. done.
  - rewrite bool_decide_eq_false_2 by (by intros [? ?]). simpl.
    rewrite lookup_alter_ne, lookup_insert_ne by done. done.
Qed.

(** ** Fee selection *)

Lemma digits_loop_bound fuel : ∀ n k,
  0 ≤ k → 0 ≤ n < 10 ^ k → Dec.digits_loop fuel n ≤ k.
Proof.
  induction fuel as [|fuel IH]; intros n k Hk Hn; simpl; [lia|].
  destruct (n =? 0) eqn:Hz; [lia|]. apply Z.eqb_neq in Hz.
  assert (1 ≤ k) as Hk1.
  { destruct (decide (k = 0)) as [->|]; [|lia]. simpl in Hn. lia. }
  assert (Dec.digits_loop fuel (n / 10) ≤ k - 1); [|lia].
  apply IH; [lia|]. split; [apply Z.div_pos; lia|].
  apply Z.div_lt_upper_bound; [lia|].
  replace k with (1 + (k - 1)) in Hn by lia.
  rewrite Z.pow_add_r in Hn by lia. lia.
Qed.

Lemma round_to_context_exact c e :
  Z.abs c < 10 ^ 28 → Dec.round_to_context c e = {| coef := c; expo := e |}.
Proof.
  intros Hc. unfold Dec.round_to_context, Dec.num_digits, Dec.PREC.
  pose proof (digits_loop_bound (S (Z.to_nat (Z.log2 (Z.abs c)))) (Z.abs c) 28).
  rewrite (proj2 (Z.leb_le _ 0)); [done | lia].
Qed.

(** Without rounding and below zero, [int(Decimal(base) * m)] is the floor
    of the product. *)
Lemma int_of_product_floor base m :
  0 ≤ base → 0 ≤ coef m → base * coef m < 10 ^ 28 →
  Dec.to_int (Dec.mul (Dec.of_int base) m)
  = Qfloor (inject_Z base * Dec.value m).
Proof.
  intros Hb Hm Hlt. unfold Dec.mul, Dec.of_int. simpl coef. simpl expo.
  rewrite round_to_context_exact by (rewrite Z.abs_eq; nia).
  unfold Dec.to_int, Dec.value. simpl coef. simpl expo.
  rewrite Z.add_0_l.
  destruct (0 <=? expo m) eqn:He.
  - unfold inject_Z, Qmult, Qfloor. simpl Qnum. simpl Qden.
    change (Z.pos (1 * 1)) with 1. rewrite Z.div_1_r. ring.
  - apply Z.leb_gt in He.
    assert (0 < 10 ^ (- expo m)) as Hpos by (apply Z.pow_pos_nonneg; lia).
    unfold inject_Z, Qmult, Qfloor. simpl Qnum. simpl Qden.
    rewrite Pos.mul_1_l, Z2Pos.id by done.
    apply Z.quot_div_nonneg; [nia | done].
Qed.

(** C3, as stated, fails: with a base fee of 10 base units the published
    configuration gives 1500000020 base units, not 21.5. *)
Lemma pick_fees_base_10_units :
  (pick_fees default_config (smooth_answers 10 5) (initial_frame ∅)).1
  = Ok (EIP1559 1500000020 1500000000)
  ∧ ¬ (inject_Z 1500000020 == 215 # 10)%Q.
Proof.
  split; [vm_compute; reflexivity|].
  unfold Qeq. simpl. lia.
Qed.

(** C3, amended: on a fee-market chain, for a base fee and a multiplier that
    are not negative and whose product fits the 28 digits of the decimal
    context, [maxFeePerGas] is [floor(baseFee * multiplier) + priorityFee] in
    base units, where [priorityFee] is the configured number of gwei, 1.5
    gwei (1500000000 base units) by default; with the multiplier 2.0 and a
    base fee of 10 gwei that is 21.5 gwei, 21500000000 base units. *)
Theorem pick_fees_fee_market cfg a fr probe base priority :
  a_get_block a 0%nat = Ok {| baseFeePerGas := Fee probe |} →
  a_get_block a 1%nat = Ok {| baseFeePerGas := Fee base |} →
  0 ≤ base →
  0 ≤ coef (MAX_FEE_MULTIPLIER cfg) →
  base * coef (MAX_FEE_MULTIPLIER cfg) < 10 ^ 28 →
  to_wei_gwei (default DEFAULT_PRIORITY_FEE_GWEI (MAX_PRIORITY_FEE_GWEI cfg))
  = Ok priority →
  (pick_fees cfg a fr).1
  = Ok (EIP1559
          (Qfloor (inject_Z base * Dec.value (MAX_FEE_MULTIPLIER cfg)) + priority)
          priority)
  ∧ (MAX_PRIORITY_FEE_GWEI cfg = None → priority = 1500000000)
  ∧ (MAX_PRIORITY_FEE_GWEI cfg = None →
     MAX_FEE_MULTIPLIER cfg = {| coef := 20; expo := -1 |} →
     base = 10 * 10 ^ 9 →
     (pick_fees cfg a fr).1 = Ok (EIP1559 21500000000 1500000000)).
Proof.
  intros H0 H1 Hb Hm Hlt Hp.
  assert ((pick_fees cfg a fr).1
          = Ok (EIP1559
                  (Qfloor (inject_Z base * Dec.value (MAX_FEE_MULTIPLIER cfg))
                   + priority) priority)) as Hfee.
  { unfold pick_fees, is_eip1559, bind, call, ret. rewrite H0. simpl.
    rewrite H1. simpl. rewrite Hp. simpl.
    by rewrite int_of_product_floor. }
  assert (MAX_PRIORITY_FEE_GWEI cfg = None → priority = 1500000000) as Hdef.
  { intros Hnone. rewrite Hnone in Hp. vm_compute in Hp. congruence. }
  split; [exact Hfee|]. split; [exact Hdef|].
  intros Hnone Hmul ->. rewrite Hfee, (Hdef Hnone), Hmul. reflexivity.
Qed.

Lemma pick_fees_fee_market_witness :
  (pick_fees default_config (smooth_answers (10 * 10 ^ 9) 5) (initial_frame ∅)).1
  = Ok (EIP1559 21500000000 1500000000).
Proof.
  refine (proj2 (proj2 (pick_fees_fee_market default_config
            (smooth_answers (10 * 10 ^ 9) 5) (initial_frame ∅)
            (10 * 10 ^ 9) (10 * 10 ^ 9) 1500000000 _ _ _ _ _ _)) _ _ _);
    first [reflexivity | by vm_compute].
Defined.

(** ** One pass of the transfer loop *)

Ltac in_list :=
  repeat first [apply list_elem_of_here | apply list_elem_of_further].

Ltac not_in_list H :=
  repeat (apply elem_of_cons in H as [H|H]; [discriminate H|]);
  by apply elem_of_nil in H.

(** A branch of [main] that returns before the loop. *)
Ltac stopped_early :=
  left; cbn [fst snd files calls record_call initial_frame app];
  split; [reflexivity|];
  split; [discriminate|];
  split; [repeat constructor|];
  first [ intros [? ?]; discriminate | intros _ H; not_in_list H ].

Lemma pick_fees_frame cfg a fr :
  ∃ cs, (pick_fees cfg a fr).2 = with_calls cs fr.
Proof.
  unfold pick_fees, is_eip1559, bind, call, ret, raise. simpl.
  destruct (a_get_block a 0%nat) as [[[| |v0]]|e0]; simpl;
    [destruct (a_gas_price a); simpl; by eexists
    |destruct (a_gas_price a); simpl; by eexists
    | |by eexists].
  destruct (a_get_block a 1%nat) as [[[| |v1]]|e1]; simpl;
    [by eexists|by eexists| |by eexists].
  destruct (to_wei_gwei _); simpl; by eexists.
Qed.

Lemma pick_fees_result cfg a fr fr' :
  (pick_fees cfg a fr).1 = (pick_fees cfg a fr').1.
Proof.
  unfold pick_fees, is_eip1559, bind, call, ret, raise. simpl.
  destruct (a_get_block a 0%nat) as [[[| |v0]]|e0]; simpl;
    [by destruct (a_gas_price a)|by destruct (a_gas_price a)| |done].
  destruct (a_get_block a 1%nat) as [[[| |v1]]|e1]; simpl; [done|done| |done].
  by destruct (to_wei_gwei _).
Qed.

Lemma on_exception_frame e cs fr :
  on_exception e (with_calls cs fr) = (Ok tt, with_calls cs (after_exception e fr)).
Proof. by destruct e. Qed.

Section ScriptFacts.

Variable gas_with_buffer : Z → Z.
Variable cfg : Config.
Variable w : World.

Lemma guarded_attempt a sender to_addr amt_units chain_id fr :
  ∃ cs,
    try_except (send_and_confirm gas_with_buffer cfg a sender to_addr
                  amt_units chain_id) on_exception fr
    = (Ok tt, with_calls cs (attempt_result cfg a fr)).
Proof.
  unfold attempt_result, send_and_confirm, try_except.
  unfold bind at 1.
  destruct (pick_fees_frame cfg a fr) as [cs0 Hfr].
  destruct (pick_fees cfg a fr) as [[ff|e] fr0] eqn:Hpf; simpl in Hfr; subst fr0;
    simpl; [|rewrite on_exception_frame; by eexists].
  unfold bind, call, ret, read, modify. simpl.
  destruct (a_estimate_gas a) as [est|ee]; simpl.
  all: destruct (a_build_transaction a) as [[]|eb]; simpl;
    [|eexists; apply (on_exception_frame eb _ fr)].
  all: destruct (a_sign_transaction a) as [raw|es]; simpl;
    [|eexists; apply (on_exception_frame es _ fr)].
  all: destruct (a_send_raw_transaction a) as [h|ex]; simpl;
    [|eexists; apply (on_exception_frame ex _ fr)].
  all: destruct (a_wait_for_receipt a) as [rc|ew]; simpl;
    [|eexists; apply (on_exception_frame ew _ (set_sent_tx_hash (Some h) fr))].
  all: unfold after_receipt; destruct (rc_status rc =? 1); simpl;
    destruct (a_process_receipt a) as [[]|]; simpl; by eexists.
Qed.

Lemma attempt_result_keeps a fr :
  nonce (attempt_result cfg a (fresh_transfer fr)) = nonce fr
  ∧ skipped (attempt_result cfg a (fresh_transfer fr)) = skipped fr
  ∧ files (attempt_result cfg a (fresh_transfer fr)) = files fr.
Proof.
  unfold attempt_result, after_receipt.
  repeat match goal with
         | |- context [match ?x with Ok _ => _ | Raise _ => _ end] =>
             destruct x as [?|[]]
         | |- context [if ?b then _ else _] => destruct b
         end; done.
Qed.

Lemma attempt_result_status a fr :
  (status (attempt_result cfg a (fresh_transfer fr)) = "SUCCESS"
   ∧ succeeded (attempt_result cfg a (fresh_transfer fr)) = succeeded fr + 1
   ∧ failed (attempt_result cfg a (fresh_transfer fr)) = failed fr)
  ∨ (status (attempt_result cfg a (fresh_transfer fr))
       ∈ ["REVERTED"; "TIMEOUT"; "CONTRACT_ERROR"; "ERROR"]
     ∧ succeeded (attempt_result cfg a (fresh_transfer fr)) = succeeded fr
     ∧ failed (attempt_result cfg a (fresh_transfer fr)) = failed fr + 1).
Proof.
  unfold attempt_result, after_receipt.
  repeat match goal with
         | |- context [match ?x with Ok _ => _ | Raise _ => _ end] =>
             destruct x as [?|[]]
         | |- context [if ?b then _ else _] => destruct b
         end;
    first [left; done | right; split; [cbn; in_list | done]].
Qed.

(** A live pass: the row it writes and the variables it leaves, in terms
    of the outcome [attempt_result] of its [try] statement. *)
Lemma iteration_live sender chain_id decimals total i to_addr amt fr :
  DRY_RUN cfg = false →
  let a := w_attempt w i in
  let fr1 := attempt_result cfg a (fresh_transfer fr) in
  let run := iteration gas_with_buffer cfg w sender chain_id decimals total
               i (to_addr, amt) fr in
  files run.2
  = AuditLogger.writerow (LOG_FILE cfg)
      (AuditLogger.row (a_now a) (i + SKIP_FIRST_N cfg) to_addr amt
         (token_units amt decimals) (sent_tx_hash fr1) (status fr1)
         (blockNumber <$> receipt fr1) (gasUsed <$> receipt fr1)
         (error_msg fr1))
      (files fr)
  ∧ succeeded run.2 = succeeded fr1 ∧ failed run.2 = failed fr1
  ∧ skipped run.2 = skipped fr
  ∧ sent_tx_hash run.2 = sent_tx_hash fr1 ∧ status run.2 = status fr1
  ∧ (if bool_decide (sent_tx_hash fr1 ≠ None)
        && bool_decide (status fr1 ∈ BROADCAST_STATUSES)
     then nonce run.2 = nonce fr + 1
     else CGetTransactionCount ∈ calls run.2
          ∧ match a_get_transaction_count a with
            | Ok n => nonce run.2 = n
            | Raise e => run.1 = Raise e
            end).
Proof.
  intros Hdry a fr1 run. subst run. unfold iteration. rewrite Hdry.
  fold a.
  destruct (guarded_attempt a sender to_addr (token_units amt decimals)
              chain_id (fresh_transfer fr)) as [cs Hg].
  destruct (attempt_result_keeps a fr) as (Hn & Hs & Hf).
  fold fr1 in Hg, Hn, Hs, Hf. clearbody fr1.
  unfold audit_log, nonce_handling. unfold bind, modify, read, call, ret.
  cbv beta iota. fold (fresh_transfer fr). rewrite Hg. cbv beta iota.
  change (sent_tx_hash (id _)) with (sent_tx_hash fr1).
  change (status (id _)) with (status fr1).
  destruct (bool_decide (sent_tx_hash fr1 ≠ None)
            && bool_decide (status fr1 ∈ BROADCAST_STATUSES)).
  - destruct (0 <? total - i); [destruct (a_press_enter a)|]; simpl;
      rewrite Hf, Hs, Hn; done.
  - destruct (a_get_transaction_count a) as [n|e]; cbv beta iota;
      [destruct (0 <? total - i); [destruct (a_press_enter a)|]|]; simpl;
      rewrite Hf, Hs; (split; [done|]); repeat (split; [done|]);
      (split; [cbn; rewrite !elem_of_app, list_elem_of_singleton; tauto | done]).
Qed.

Lemma iteration_spec sender chain_id decimals total i r fr :
  let run := iteration gas_with_buffer cfg w sender chain_id decimals total
               i r fr in
  ∃ row,
    files run.2 = AuditLogger.writerow (LOG_FILE cfg) row (files fr)
    ∧ row_written cfg row
    ∧ one_counter_up fr run.2
    ∧ (DRY_RUN cfg = true →
       run.1 = Ok tt ∧ calls run.2 = calls fr ∧ nonce run.2 = nonce fr + 1
       ∧ skipped run.2 = skipped fr + 1).
Proof.
  destruct r as [to_addr amt]. intros run.
  destruct (DRY_RUN cfg) eqn:Hdry.
  - subst run. unfold iteration. rewrite Hdry. eexists. split; [reflexivity|].
    split; [|split; [|done]].
    + exists "DRY_RUN". split; [done|]. split; [|done].
      unfold WRITTEN_STATUSES. in_list.
    + right; right. done.
  - destruct (iteration_live sender chain_id decimals total i to_addr amt fr
                Hdry) as (Hf & Hsu & Hfa & Hsk & _ & _ & _).
    fold run in Hf, Hsu, Hfa, Hsk.
    eexists. split; [exact Hf|]. split; [|split; [|done]].
    + eexists. split; [reflexivity|].
      destruct (attempt_result_status (w_attempt w i) fr)
        as [(-> & _)|(Hst & _)].
      * split; [unfold WRITTEN_STATUSES; in_list|].
        rewrite Hdry. split; discriminate.
      * split; [unfold WRITTEN_STATUSES; do 2 apply list_elem_of_further; exact Hst|].
        rewrite Hdry. split; [discriminate|].
        intros Heq. rewrite Heq in Hst. not_in_list Hst.
    + unfold one_counter_up. rewrite Hsu, Hfa, Hsk.
      destruct (attempt_result_status (w_attempt w i) fr)
        as [(_ & -> & ->)|(_ & -> & ->)]; [left|right; left]; done.
Qed.

Lemma append_rows_nil p (fs : gmap string (list Row)) : append_rows p [] fs = fs.
Proof.
  unfold append_rows. apply alter_id. intros x _. by rewrite app_nil_r.
Qed.

Lemma append_rows_cons p r rows (fs : gmap string (list Row)) :
  append_rows p rows (AuditLogger.writerow p r fs) = append_rows p (r :: rows) fs.
Proof.
  unfold append_rows, AuditLogger.writerow.
  rewrite alter_alter_eq. apply alter_ext. intros x _. simpl.
  by rewrite <- app_assoc.
Qed.

Lemma transfer_loop_spec sender chain_id decimals total recipients :
  ∀ i fr,
    let run := transfer_loop gas_with_buffer cfg w sender chain_id decimals
                 total i recipients fr in
    ∃ rows,
      files run.2 = append_rows (LOG_FILE cfg) rows (files fr)
      ∧ Forall (row_written cfg) rows
      ∧ succeeded run.2 + failed run.2 + skipped run.2
        = succeeded fr + failed fr + skipped fr + Z.of_nat (length rows)
      ∧ (length rows ≤ length recipients)%nat
      ∧ (run.1 = Ok tt → length rows = length recipients)
      ∧ (DRY_RUN cfg = true →
         run.1 = Ok tt ∧ calls run.2 = calls fr
         ∧ nonce run.2 = nonce fr + Z.of_nat (length recipients)
         ∧ skipped run.2 = skipped fr + Z.of_nat (length recipients)).
Proof.
  induction recipients as [|r rest IH]; intros i fr run.
  - exists []. subst run. simpl. rewrite append_rows_nil.
    repeat split; (done || lia).
  - subst run. simpl. unfold bind.
    destruct (iteration_spec sender chain_id decimals total i r fr)
      as (row & Hf & Hrow & Hcnt & Hdry).
    destruct (iteration gas_with_buffer cfg w sender chain_id decimals total
                i r fr) as [[[]|e] fr1] eqn:Hit; simpl in Hf, Hcnt, Hdry.
    + destruct (IH (i + 1) fr1) as (rows & Hf' & Hrows & Hsum & Hlen & Hok & Hdry').
      exists (row :: rows).
      split; [rewrite Hf', Hf; apply append_rows_cons|].
      split; [by constructor|].
      split; [rewrite Hsum; simpl length; unfold one_counter_up in Hcnt; lia|].
      split; [simpl; lia|].
      split; [intros H; simpl; by rewrite (Hok H)|].
      intros Hd. destruct (Hdry Hd) as (_ & Hc & Hn & Hs).
      destruct (Hdry' Hd) as (Hr' & Hc' & Hn' & Hs').
      split; [done|]. split; [congruence|].
      simpl length. split; lia.
    + exists [row]. simpl.
      split; [exact Hf|].
      split; [by constructor|].
      split; [unfold one_counter_up in Hcnt; lia|].
      split; [lia|].
      split; [done|].
      intros Hd. by destruct (Hdry Hd).
Qed.

Variable to_checksum_address : string → option string.

(** A run of [main] either stops before the loop, leaving the files as
    they were, or is the loop run from [loop_start]. *)
Lemma main_cases fs :
  let run := main to_checksum_address gas_with_buffer cfg w (initial_frame fs) in
  (files run.2 = fs
   ∧ run.1 ≠ Exit 0
   ∧ Forall (λ c, preamble_call c = true) (calls run.2)
   ∧ ((∃ code, run.1 = Exit code) → CGetTransactionCount ∉ calls run.2))
  ∨ (∃ all_recipients n sender chain_id cs,
       parse_recipients to_checksum_address (RECIPIENTS_RAW cfg) = Ok all_recipients
       ∧ w_decimals w = Ok EXPECTED_DECIMALS
       ∧ Forall (λ c, preamble_call c = true) cs
       ∧ let recipients := apply_skip cfg all_recipients in
         let lp := transfer_loop gas_with_buffer cfg w sender chain_id
                     EXPECTED_DECIMALS (Z.of_nat (length recipients)) 1
                     recipients (loop_start cfg n cs fs) in
         run.2 = lp.2
         ∧ run.1 = match lp.1 with
                   | Ok _ => Exit (if failed lp.2 =? 0 then 0 else 1)
                   | Raise e => Propagated e
                   end).
Proof.
  intros run. subst run. unfold main.
  destruct (bool_decide (RPC_URL cfg = "") || PyStr.contains _ (RPC_URL cfg));
    [stopped_early|].
  destruct (bool_decide (PRIVATE_KEY cfg = "") || PyStr.contains _ (PRIVATE_KEY cfg));
    [stopped_early|].
  unfold and_then, exit_with, try_except, bind, call, ret, modify.
  cbv beta iota.
  destruct (w_is_connected w) as [[|]|e]; cbn [negb]; cbv beta iota;
    [|stopped_early|stopped_early].
  destruct (w_from_key w) as [sender|e]; [|stopped_early].
  destruct (w_name w) as [name|ename], (w_symbol w) as [symbol|esymbol];
    cbv beta iota.
  all: destruct (w_decimals w) as [d|e] eqn:Hd; cbv beta iota; [|stopped_early].
  all: destruct (d =? EXPECTED_DECIMALS) eqn:Hdec; cbn [negb]; cbv beta iota;
    [|stopped_early].
  all: apply Z.eqb_eq in Hdec; subst d.
  all: destruct (parse_recipients to_checksum_address (RECIPIENTS_RAW cfg))
         as [all_recipients|e] eqn:Hparse; [|stopped_early].
  all: destruct (w_chain_id w) as [chain_id|e]; [|stopped_early].
  all: destruct (w_block_number w) as [?|e]; [|stopped_early].
  all: destruct (w_get_balance w) as [?|e]; [|stopped_early].
  all: destruct (w_balance_of w) as [token_balance|e]; [|stopped_early].
  all: destruct (token_balance <? _); cbv beta iota; [stopped_early|].
  all: destruct (DRY_RUN cfg) eqn:Hdry; cbv beta iota;
    [|destruct (w_confirm w) as [confirm|e]; cbv beta iota; [|stopped_early];
      destruct (bool_decide (PyStr.strip confirm = "SEND")); cbn [negb];
      cbv beta iota; [|stopped_early]].
  all: cbn [negb]; cbv beta iota.
  all: destruct (w_start_nonce w) as [n|e]; cbv beta iota; [|stopped_early].
  all: right; exists all_recipients, n, sender, chain_id.
  all: match goal with
       | |- context [transfer_loop _ _ _ _ _ _ _ _ _ ?fr] => exists (calls fr)
       end.
  all: split; [reflexivity|]; split; [reflexivity|].
  all: split; [cbn [calls set_files set_skipped set_failed set_succeeded
                         set_nonce record_call initial_frame app];
               repeat constructor|]; cbv zeta.
  all: cbv [loop_start set_files set_skipped set_failed set_succeeded
            set_nonce record_call initial_frame calls files nonce succeeded
            failed skipped sent_tx_hash receipt error_msg status app].
  all: match goal with
       | |- context [transfer_loop ?g ?c ?w ?s ?ch ?d ?t ?i ?rs ?fr] =>
           destruct (transfer_loop g c w s ch d t i rs fr) as [[[]|?] ?];
           split; reflexivity
       end.
Qed.

End ScriptFacts.

(** ** The nonce *)

(** The hash variable after the [try] statement is unset exactly when a step
    up to the broadcast raised. *)
Lemma attempt_result_before_hash cfg a fr :
  ((∃ e, (pick_fees cfg a fr).1 = Raise e)
   ∨ (∃ e, a_build_transaction a = Raise e)
   ∨ (∃ e, a_sign_transaction a = Raise e)
   ∨ (∃ e, a_send_raw_transaction a = Raise e)) →
  sent_tx_hash (attempt_result cfg a (fresh_transfer fr)) = None.
Proof.
  intros H. unfold attempt_result.
  rewrite (pick_fees_result cfg a (fresh_transfer fr) fr).
  destruct ((pick_fees cfg a fr).1) as [ff|[]]; [|done..].
  destruct (a_build_transaction a) as [?|[]]; [|done..].
  destruct (a_sign_transaction a) as [?|[]]; [|done..].
  destruct (a_send_raw_transaction a) as [?|[]]; [|done..].
  destruct H as [[? ?]|[[? ?]|[[? ?]|[? ?]]]]; done.
Qed.

(** C5: in a live run, when a step before the transaction hash raises (the
    fee query, building, signing or the broadcast), the pass leaves the hash
    unset, asks the ledger for the pending transaction count, and the nonce
    of the next pass is that answer, whatever the nonce was; when the query
    itself raises, the exception leaves the loop. *)
Theorem nonce_refetched_before_hash gas_with_buffer cfg w sender chain_id
    decimals total i to_addr amt fr :
  DRY_RUN cfg = false →
  ((∃ e, (pick_fees cfg (w_attempt w i) fr).1 = Raise e)
   ∨ (∃ e, a_build_transaction (w_attempt w i) = Raise e)
   ∨ (∃ e, a_sign_transaction (w_attempt w i) = Raise e)
   ∨ (∃ e, a_send_raw_transaction (w_attempt w i) = Raise e)) →
  let run := iteration gas_with_buffer cfg w sender chain_id decimals total i
               (to_addr, amt) fr in
  sent_tx_hash run.2 = None
  ∧ CGetTransactionCount ∈ calls run.2
  ∧ match a_get_transaction_count (w_attempt w i) with
    | Ok n => nonce run.2 = n
    | Raise e => run.1 = Raise e
    end.
Proof.
  intros Hdry Hfail run.
  destruct (iteration_live gas_with_buffer cfg w sender chain_id decimals total
              i to_addr amt fr Hdry) as (_ & _ & _ & _ & Hsent & _ & Hnonce).
  fold run in Hsent, Hnonce.
  rewrite (attempt_result_before_hash cfg _ fr Hfail) in Hsent, Hnonce.
  rewrite bool_decide_eq_false_2 in Hnonce by (by intros H; apply H).
  simpl in Hnonce. destruct Hnonce as [Hcall Hn]. done.
Qed.

Lemma nonce_refetched_before_hash_witness :
  let run := iteration gas_plus_15_percent live_config
               (sample_world 18 (λ _, answers_sign_raises 9))
               SENDER 1 18 2 1
               ("0x000000000000000000000000000000000000dead", 1000)
               (set_nonce 5 (initial_frame ∅)) in
  sent_tx_hash run.2 = None
  ∧ CGetTransactionCount ∈ calls run.2
  ∧ nonce run.2 = 9.
Proof.
  apply (nonce_refetched_before_hash gas_plus_15_percent live_config
           (sample_world 18 (λ _, answers_sign_raises 9))
           SENDER 1 18 2 1
           "0x000000000000000000000000000000000000dead" 1000
           (set_nonce 5 (initial_frame ∅))).
  - reflexivity.
  - right; right; left. by eexists.
Defined.

(** C1, as stated, fails: the hash is obtained, waiting for the receipt ends
    with a generic exception, and the nonce of the next pass is the pending
    count the ledger reports (here still 5), not the nonce plus 1. *)
Lemma nonce_after_generic_error :
  let run := iteration gas_plus_15_percent live_config
               (sample_world 18
                  (λ _, answers_wait_raises (OtherException "connection reset") 5))
               SENDER 1 18 2 1
               ("0x000000000000000000000000000000000000dead", 1000)
               (set_nonce 5 (initial_frame ∅)) in
  run.1 = Ok tt
  ∧ sent_tx_hash run.2 = Some "0x9fc7"
  ∧ status run.2 = "ERROR"
  ∧ nonce run.2 = 5
  ∧ nonce run.2 ≠ 5 + 1.
Proof. vm_compute. repeat split; discriminate. Qed.

(** C1, amended: in a live run, when the transaction hash was obtained, the
    nonce advances by exactly 1 if the pass ends as SUCCESS, REVERTED or
    TIMEOUT; if another exception is raised after the hash was obtained
    (CONTRACT_ERROR, ERROR), the nonce is instead read again from the
    ledger's pending transaction count. *)
Theorem nonce_after_hash gas_with_buffer cfg w sender chain_id decimals total
    i to_addr amt fr ff raw h :
  DRY_RUN cfg = false →
  (pick_fees cfg (w_attempt w i) fr).1 = Ok ff →
  a_build_transaction (w_attempt w i) = Ok tt →
  a_sign_transaction (w_attempt w i) = Ok raw →
  a_send_raw_transaction (w_attempt w i) = Ok h →
  let run := iteration gas_with_buffer cfg w sender chain_id decimals total i
               (to_addr, amt) fr in
  sent_tx_hash run.2 = Some h
  ∧ match a_wait_for_receipt (w_attempt w i) with
    | Ok rc =>
        status run.2 = (if rc_status rc =? 1 then "SUCCESS" else "REVERTED")
        ∧ nonce run.2 = nonce fr + 1
    | Raise (TimeExhausted _) =>
        status run.2 = "TIMEOUT" ∧ nonce run.2 = nonce fr + 1
    | Raise (ContractLogicError _) =>
        status run.2 = "CONTRACT_ERROR"
        ∧ match a_get_transaction_count (w_attempt w i) with
          | Ok n => nonce run.2 = n
          | Raise e => run.1 = Raise e
          end
    | Raise (OtherException _) =>
        status run.2 = "ERROR"
        ∧ match a_get_transaction_count (w_attempt w i) with
          | Ok n => nonce run.2 = n
          | Raise e => run.1 = Raise e
          end
    end.
Proof.
  intros Hdry Hfee Hbuild Hsign Hsend run.
  destruct (iteration_live gas_with_buffer cfg w sender chain_id decimals total
              i to_addr amt fr Hdry) as (_ & _ & _ & _ & Hsent & Hstatus & Hnonce).
  fold run in Hsent, Hstatus, Hnonce.
  unfold attempt_result in Hsent, Hstatus, Hnonce.
  rewrite (pick_fees_result cfg _ (fresh_transfer fr) fr), Hfee, Hbuild, Hsign,
    Hsend in Hsent, Hstatus, Hnonce.
  destruct (a_wait_for_receipt (w_attempt w i)) as [rc|[m|m|m]].
  - unfold after_receipt in Hsent, Hstatus, Hnonce.
    destruct (rc_status rc =? 1); simpl in Hsent, Hstatus, Hnonce; done.
  - simpl in Hsent, Hstatus, Hnonce. done.
  - simpl in Hsent, Hstatus, Hnonce. destruct Hnonce as [_ Hn]. done.
  - simpl in Hsent, Hstatus, Hnonce. destruct Hnonce as [_ Hn]. done.
Qed.

Lemma nonce_after_hash_witness :
  let run := iteration gas_plus_15_percent live_config
               (sample_world 18 (λ _, answers_wait_raises (TimeExhausted "120 seconds") 5))
               SENDER 1 18 2 1
               ("0x000000000000000000000000000000000000dead", 1000)
               (set_nonce 5 (initial_frame ∅)) in
  sent_tx_hash run.2 = Some "0x9fc7"
  ∧ status run.2 = "TIMEOUT" ∧ nonce run.2 = 5 + 1.
Proof.
  apply (nonce_after_hash gas_plus_15_percent live_config
           (sample_world 18 (λ _, answers_wait_raises (TimeExhausted "120 seconds") 5))
           SENDER 1 18 2 1
           "0x000000000000000000000000000000000000dead" 1000
           (set_nonce 5 (initial_frame ∅))
           (EIP1559 1500000020 1500000000) "0xf86b" "0x9fc7");
    reflexivity.
Defined.

(** ** Runs of [main] *)

Lemma preamble_call_sends_nothing (cs : list Call) :
  Forall (λ c, preamble_call c = true) cs →
  Forall (λ c, signs_or_broadcasts c = false) cs.
Proof. intros H. eapply Forall_impl; [exact H|]. by intros []. Qed.

(** C2, as stated, fails: the rows of a dry run carry the status DRY_RUN,
    which is not in the specified list. *)
Lemma dry_run_rows_status :
  let run := main lowercase_address gas_plus_15_percent dry_config
               (sample_world 18 (λ _, smooth_answers 10 5)) (initial_frame ∅) in
  ∃ rows,
    files run.2 !! LOG_FILE dry_config = Some (AuditLogger.header :: rows)
    ∧ AuditLogger.status_of <$> rows
      = [Some (CellStr "DRY_RUN"); Some (CellStr "DRY_RUN")]
    ∧ "DRY_RUN" ∉ SPECIFIED_STATUSES.
Proof.
  eexists. split; [vm_compute; reflexivity|]. split; [reflexivity|].
  intros H. not_in_list H.
Qed.

(** C2, amended: every row a run appends to the audit file has a status
    among DRY_RUN, SUCCESS, REVERTED, TIMEOUT, CONTRACT_ERROR and ERROR, and
    in dry-run mode every row has the status DRY_RUN. *)
Theorem audit_rows_statuses tca gas_with_buffer cfg w fs :
  let run := main tca gas_with_buffer cfg w (initial_frame fs) in
  ∃ rows,
    (files run.2 = fs ∧ rows = []
     ∨ files run.2
       = append_rows (LOG_FILE cfg) rows (AuditLogger.enter (LOG_FILE cfg) fs))
    ∧ Forall (λ r, ∃ st, AuditLogger.status_of r = Some (CellStr st)
                         ∧ st ∈ WRITTEN_STATUSES
                         ∧ (DRY_RUN cfg = true → st = "DRY_RUN")) rows.
Proof.
  intros run.
  destruct (main_cases gas_with_buffer cfg w tca fs)
    as [(Hfs & _)|(all_recipients & n & sender & chain_id & cs & _ & _ & _ & H)].
  - exists []. split; [by left | constructor].
  - cbv zeta in H. destruct H as [Hrun _]. fold run in Hrun.
    destruct (transfer_loop_spec gas_with_buffer cfg w sender chain_id
                EXPECTED_DECIMALS
                (Z.of_nat (length (apply_skip cfg all_recipients)))
                (apply_skip cfg all_recipients) 1 (loop_start cfg n cs fs))
      as (rows & Hfiles & Hrows & _).
    exists rows. split; [right; by rewrite Hrun, Hfiles|].
    eapply Forall_impl; [exact Hrows|].
    intros r (st & Hst & Hin & Hdry). exists st.
    split; [done|]. split; [done|]. apply Hdry.
Qed.

Lemma append_rows_lookup p rows (fs : gmap string (list Row)) :
  append_rows p rows fs !! p = (λ old, old ++ rows) <$> fs !! p.
Proof. unfold append_rows. by rewrite lookup_alter_eq. Qed.

Lemma apply_skip_length cfg (all_recipients : list Recipient) :
  length (apply_skip cfg all_recipients)
  = (length all_recipients - Z.to_nat (SKIP_FIRST_N cfg))%nat.
Proof.
  unfold apply_skip. destruct (0 <? SKIP_FIRST_N cfg) eqn:Hs.
  - by rewrite length_drop.
  - apply Z.ltb_ge in Hs. replace (Z.to_nat (SKIP_FIRST_N cfg)) with 0%nat by lia.
    lia.
Qed.

(** A branch of [main] that returns before the loop, with what its trace
    says about the starting nonce. *)
Ltac stopped_before_loop :=
  left; cbn [fst snd files calls record_call initial_frame app];
  split; [reflexivity|];
  split; [discriminate|];
  split; [repeat constructor|];
  first [ intros _; by eexists | intros H; not_in_list H ].

Section MainFacts.

Variable gas_with_buffer : Z → Z.
Variable cfg : Config.
Variable w : World.
Variable to_checksum_address : string → option string.

(** A run of [main] stops before the loop, or every precondition held and
    the run is the loop from [loop_start]. *)
Lemma main_cases_pre fs :
  let run := main to_checksum_address gas_with_buffer cfg w (initial_frame fs) in
  (files run.2 = fs
   ∧ run.1 ≠ Exit 0
   ∧ Forall (λ c, preamble_call c = true) (calls run.2)
   ∧ (CGetTransactionCount ∈ calls run.2 → ∃ e, w_start_nonce w = Raise e))
  ∨ (∃ all_recipients n sender chain_id cs token_balance,
       parse_recipients to_checksum_address (RECIPIENTS_RAW cfg) = Ok all_recipients
       ∧ w_decimals w = Ok EXPECTED_DECIMALS
       ∧ w_is_connected w = Ok true
       ∧ w_balance_of w = Ok token_balance
       ∧ required_units EXPECTED_DECIMALS (apply_skip cfg all_recipients)
         ≤ token_balance
       ∧ (DRY_RUN cfg = false →
          ∃ confirm, w_confirm w = Ok confirm ∧ PyStr.strip confirm = "SEND")
       ∧ w_start_nonce w = Ok n
       ∧ Forall (λ c, preamble_call c = true) cs
       ∧ let recipients := apply_skip cfg all_recipients in
         let lp := transfer_loop gas_with_buffer cfg w sender chain_id
                     EXPECTED_DECIMALS (Z.of_nat (length recipients)) 1
                     recipients (loop_start cfg n cs fs) in
         run.2 = lp.2
         ∧ run.1 = match lp.1 with
                   | Ok _ => Exit (if failed lp.2 =? 0 then 0 else 1)
                   | Raise e => Propagated e
                   end).
Proof.
  intros run. subst run. unfold main.
  destruct (bool_decide (RPC_URL cfg = "") || PyStr.contains _ (RPC_URL cfg));
    [stopped_before_loop|].
  destruct (bool_decide (PRIVATE_KEY cfg = "") || PyStr.contains _ (PRIVATE_KEY cfg));
    [stopped_before_loop|].
  unfold and_then, exit_with, try_except, bind, call, ret, modify.
  cbv beta iota.
  destruct (w_is_connected w) as [[|]|e]; cbn [negb]; cbv beta iota;
    [|stopped_before_loop|stopped_before_loop].
  destruct (w_from_key w) as [sender|e]; [|stopped_before_loop].
  destruct (w_name w) as [name|ename], (w_symbol w) as [symbol|esymbol];
    cbv beta iota.
  all: destruct (w_decimals w) as [d|e] eqn:Hd; cbv beta iota;
    [|stopped_before_loop].
  all: destruct (d =? EXPECTED_DECIMALS) eqn:Hdec; cbn [negb]; cbv beta iota;
    [|stopped_before_loop].
  all: apply Z.eqb_eq in Hdec; subst d.
  all: destruct (parse_recipients to_checksum_address (RECIPIENTS_RAW cfg))
         as [all_recipients|e] eqn:Hparse; [|stopped_before_loop].
  all: destruct (w_chain_id w) as [chain_id|e]; [|stopped_before_loop].
  all: destruct (w_block_number w) as [?|e]; [|stopped_before_loop].
  all: destruct (w_get_balance w) as [?|e]; [|stopped_before_loop].
  all: destruct (w_balance_of w) as [token_balance|e]; [|stopped_before_loop].
  all: destruct (token_balance <? _) eqn:Hbal; cbv beta iota;
    [stopped_before_loop|].
  all: apply Z.ltb_ge in Hbal.
  all: destruct (DRY_RUN cfg) eqn:Hdry; cbv beta iota;
    [|destruct (w_confirm w) as [confirm|e]; cbv beta iota;
      [|stopped_before_loop];
      destruct (bool_decide (PyStr.strip confirm = "SEND")) eqn:Hconf;
      cbn [negb]; cbv beta iota; [|stopped_before_loop]].
  all: cbn [negb]; cbv beta iota.
  all: destruct (w_start_nonce w) as [n|e]; cbv beta iota;
    [|stopped_before_loop].
  all: right; exists all_recipients, n, sender, chain_id.
  all: match goal with
       | |- context [transfer_loop _ _ _ _ _ _ _ _ _ ?fr] => exists (calls fr)
       end.
  all: exists token_balance.
  all: split; [reflexivity|]; split; [reflexivity|]; split; [reflexivity|].
  all: split; [reflexivity|]; split; [exact Hbal|].
  all: split;
    [first [ intros H; discriminate H
           | intros _; exists confirm; split;
             [reflexivity | exact (bool_decide_eq_true_1 _ Hconf)] ]|].
  all: split; [reflexivity|].
  all: split; [cbn [calls set_files set_skipped set_failed set_succeeded
                         set_nonce record_call initial_frame app];
               repeat constructor|]; cbv zeta.
  all: cbv [loop_start set_files set_skipped set_failed set_succeeded
            set_nonce record_call initial_frame calls files nonce succeeded
            failed skipped sent_tx_hash receipt error_msg status app].
  all: match goal with
       | |- context [transfer_loop ?g ?c ?w ?s ?ch ?d ?t ?i ?rs ?fr] =>
           destruct (transfer_loop g c w s ch d t i rs fr) as [[[]|?] ?];
           split; reflexivity
       end.
Qed.

End MainFacts.

(** C4: in dry-run mode no call of the run estimates gas, signs or
    broadcasts.  Every pass of the loop succeeds without any call to the
    ledger, adds exactly 1 to the nonce, and leaves the audit file with one
    more row at its end, whose status is DRY_RUN, and every other file as it
    was; so the loop over [recipients] adds their number to the nonce and as
    many DRY_RUN rows to the file.  A run that read its starting nonce ends
    with the audit file holding its header (or its former rows) followed by
    one DRY_RUN row for each recipient left after the skip, and with the
    nonce at the starting nonce plus their number. *)
Theorem dry_run_sends_nothing tca gas_with_buffer cfg w fs :
  DRY_RUN cfg = true →
  let run := main tca gas_with_buffer cfg w (initial_frame fs) in
  Forall (λ c, signs_or_broadcasts c = false) (calls run.2)
  ∧ (∀ sender chain_id decimals total i r fr,
       let pass := iteration gas_with_buffer cfg w sender chain_id decimals
                     total i r fr in
       pass.1 = Ok tt ∧ calls pass.2 = calls fr ∧ nonce pass.2 = nonce fr + 1
       ∧ (∀ path, path ≠ LOG_FILE cfg → files pass.2 !! path = files fr !! path)
       ∧ ∃ row, AuditLogger.status_of row = Some (CellStr "DRY_RUN")
                ∧ ∀ prior, files fr !! LOG_FILE cfg = Some prior →
                    files pass.2 !! LOG_FILE cfg = Some (prior ++ [row]))
  ∧ (∀ sender chain_id decimals total i recipients fr,
       let lp := transfer_loop gas_with_buffer cfg w sender chain_id decimals
                   total i recipients fr in
       lp.1 = Ok tt ∧ calls lp.2 = calls fr
       ∧ nonce lp.2 = nonce fr + Z.of_nat (length recipients)
       ∧ ∃ rows,
           length rows = length recipients
           ∧ Forall (λ row, AuditLogger.status_of row = Some (CellStr "DRY_RUN"))
               rows
           ∧ ∀ prior, files fr !! LOG_FILE cfg = Some prior →
               files lp.2 !! LOG_FILE cfg = Some (prior ++ rows))
  ∧ (∀ n, w_start_nonce w = Ok n → CGetTransactionCount ∈ calls run.2 →
       ∃ all_recipients rows,
         parse_recipients tca (RECIPIENTS_RAW cfg) = Ok all_recipients
         ∧ files run.2 !! LOG_FILE cfg
           = Some (match fs !! LOG_FILE cfg with
                   | None => [AuditLogger.header]
                   | Some prior => prior
                   end ++ rows)
         ∧ length rows = length (apply_skip cfg all_recipients)
         ∧ Forall (λ row, AuditLogger.status_of row = Some (CellStr "DRY_RUN"))
             rows
         ∧ nonce run.2 = n + Z.of_nat (length rows)).
Proof.
  intros Hdry run.
  assert (∀ sender chain_id decimals total i recipients fr,
            let lp := transfer_loop gas_with_buffer cfg w sender chain_id
                        decimals total i recipients fr in
            lp.1 = Ok tt ∧ calls lp.2 = calls fr
            ∧ nonce lp.2 = nonce fr + Z.of_nat (length recipients)
            ∧ ∃ rows,
                length rows = length recipients
                ∧ Forall (λ row, AuditLogger.status_of row
                                 = Some (CellStr "DRY_RUN")) rows
                ∧ ∀ prior, files fr !! LOG_FILE cfg = Some prior →
                    files lp.2 !! LOG_FILE cfg = Some (prior ++ rows))
    as Hloop.
  { intros sender chain_id decimals total i recipients fr lp.
    destruct (transfer_loop_spec gas_with_buffer cfg w sender chain_id decimals
                total recipients i fr)
      as (rows & Hfiles & Hrows & _ & _ & Hlen & Hd).
    destruct (Hd Hdry) as (Hok & Hcalls & Hnonce & _).
    repeat (split; [done|]). exists rows.
    split; [by apply Hlen|]. split.
    - eapply Forall_impl; [exact Hrows|].
      intros row (st & Hst & _ & Hiff). by rewrite Hst, (proj1 Hiff Hdry).
    - intros prior Hprior. fold lp in Hfiles.
      by rewrite Hfiles, append_rows_lookup, Hprior. }
  split; [|split; [|split; [exact Hloop|]]].
  - subst run.
    destruct (main_cases gas_with_buffer cfg w tca fs)
      as [(_ & _ & Hcalls & _)
         |(all_recipients & n & sender & chain_id & cs & _ & _ & Hcs & H)].
    + by apply preamble_call_sends_nothing.
    + cbv zeta in H. destruct H as [-> _].
      destruct (Hloop sender chain_id EXPECTED_DECIMALS
                  (Z.of_nat (length (apply_skip cfg all_recipients))) 1
                  (apply_skip cfg all_recipients) (loop_start cfg n cs fs))
        as (_ & -> & _).
      by apply preamble_call_sends_nothing.
  - intros sender chain_id decimals total i r fr pass.
    destruct (iteration_spec gas_with_buffer cfg w sender chain_id decimals
                total i r fr) as (row & Hf & (st & Hst & _ & Hiff) & _ & Hd).
    destruct (Hd Hdry) as (Hok & Hcalls & Hnonce & _). fold pass in Hf.
    repeat (split; [done|]). split.
    + intros path Hpath. rewrite Hf. unfold AuditLogger.writerow.
      by rewrite lookup_alter_ne.
    + exists row. split; [by rewrite Hst, (proj1 Hiff Hdry)|].
      intros prior Hprior. rewrite Hf. unfold AuditLogger.writerow.
      by rewrite lookup_alter_eq, Hprior.
  - intros n Hn Hin. subst run.
    destruct (main_cases_pre gas_with_buffer cfg w tca fs)
      as [(_ & _ & _ & Hraise)
         |(all_recipients & n' & sender & chain_id & cs & bal & Hparse & _ & _
           & _ & _ & _ & Hn' & _ & H)].
    { destruct (Hraise Hin) as [e He]. congruence. }
    cbv zeta in H. destruct H as [-> _].
    destruct (Hloop sender chain_id EXPECTED_DECIMALS
                (Z.of_nat (length (apply_skip cfg all_recipients))) 1
                (apply_skip cfg all_recipients) (loop_start cfg n' cs fs))
      as (_ & _ & Hnonce & rows & Hlen & Hrows & Hfiles).
    exists all_recipients, rows. split; [done|].
    split; [apply Hfiles; simpl files; apply audit_enter_lookup|].
    split; [done|]. split; [done|].
    rewrite Hnonce, Hlen. simpl nonce. congruence.
Qed.

(** A dry run over the two published recipients, with no audit file yet. *)
Lemma dry_run_sends_nothing_witness :
  let run := main lowercase_address gas_plus_15_percent dry_config
               (sample_world 18 (λ _, smooth_answers 10 5)) (initial_frame ∅) in
  (calls run.2
   = [CIsConnected; CFromKey; CName; CSymbol; CDecimals; CChainId;
      CBlockNumber; CGetBalance; CBalanceOf; CGetTransactionCount]
   ∧ length <$> files run.2 !! LOG_FILE dry_config = Some 3%nat)
  ∧ Forall (λ c, signs_or_broadcasts c = false) (calls run.2)
  ∧ ∃ all_recipients rows,
      parse_recipients lowercase_address (RECIPIENTS_RAW dry_config)
      = Ok all_recipients
      ∧ files run.2 !! LOG_FILE dry_config = Some ([AuditLogger.header] ++ rows)
      ∧ length rows = length (apply_skip dry_config all_recipients)
      ∧ Forall (λ row, AuditLogger.status_of row = Some (CellStr "DRY_RUN"))
          rows
      ∧ nonce run.2 = 5 + Z.of_nat (length rows).
Proof.
  split; [vm_compute; split; reflexivity|].
  pose proof (dry_run_sends_nothing lowercase_address gas_plus_15_percent
                dry_config (sample_world 18 (λ _, smooth_answers 10 5)) ∅
                eq_refl) as (Hcalls & _ & _ & Hrun).
  split; [exact Hcalls|].
  refine (Hrun 5 _ _).
  - reflexivity.
  - vm_compute. in_list.
Defined.

Ltac aborted_run :=
  cbn [fst snd files calls record_call initial_frame app];
  split; [reflexivity|];
  split; [first [left; reflexivity | right; eexists; reflexivity]|];
  split; [repeat constructor|];
  split; [intros H; not_in_list H|];
  first [by intros _ | intros H; not_in_list H].

(** C6: when the token reports a number of decimals other than 18, the run
    ends before the loop: it returns the failure status 1 (or an earlier
    call already raised), it makes only calls of the preamble, never reads a
    starting nonce, and leaves every file as it was, so no audit row is
    written. *)
Theorem decimals_mismatch_aborts tca gas_with_buffer cfg w fs d :
  w_decimals w = Ok d →
  d ≠ EXPECTED_DECIMALS →
  let run := main tca gas_with_buffer cfg w (initial_frame fs) in
  files run.2 = fs
  ∧ (run.1 = Exit 1 ∨ (∃ e, run.1 = Propagated e))
  ∧ Forall (λ c, preamble_call c = true) (calls run.2)
  ∧ (CGetTransactionCount ∉ calls run.2)
  ∧ (CDecimals ∈ calls run.2 → run.1 = Exit 1).
Proof.
  intros Hd Hne run. subst run. unfold main.
  destruct (bool_decide (RPC_URL cfg = "") || PyStr.contains _ (RPC_URL cfg));
    [aborted_run|].
  destruct (bool_decide (PRIVATE_KEY cfg = "") || PyStr.contains _ (PRIVATE_KEY cfg));
    [aborted_run|].
  unfold and_then, exit_with, try_except, bind, call, ret, modify.
  cbv beta iota.
  destruct (w_is_connected w) as [[|]|e]; cbn [negb]; cbv beta iota;
    [|aborted_run|aborted_run].
  destruct (w_from_key w) as [sender|e]; [|aborted_run].
  rewrite Hd.
  destruct (w_name w) as [name|ename], (w_symbol w) as [symbol|esymbol];
    cbv beta iota.
  all: rewrite (proj2 (Z.eqb_neq d EXPECTED_DECIMALS) Hne); cbn [negb].
  all: aborted_run.
Qed.

Lemma decimals_mismatch_aborts_witness :
  let run := main lowercase_address gas_plus_15_percent live_config
               (sample_world 6 (λ _, smooth_answers 10 5)) (initial_frame ∅) in
  files run.2 = ∅
  ∧ (run.1 = Exit 1 ∨ (∃ e, run.1 = Propagated e))
  ∧ Forall (λ c, preamble_call c = true) (calls run.2)
  ∧ (CGetTransactionCount ∉ calls run.2)
  ∧ (CDecimals ∈ calls run.2 → run.1 = Exit 1).
Proof.
  apply (decimals_mismatch_aborts lowercase_address gas_plus_15_percent
           live_config (sample_world 6 (λ _, smooth_answers 10 5)) ∅ 6).
  - reflexivity.
  - discriminate.
Defined.

(** C10, as the text has it, fails on a live run over the two published
    recipients in which the first transfer is confirmed and the prompt before
    the second finds the standard input closed: the exception leaves
    [main], which returns no exit status although [failed] is 0, and the
    counters add up to 1, not to the 2 recipients; the file has one row. *)
Lemma counters_stop_at_prompt :
  let run := main lowercase_address gas_plus_15_percent live_config
               (sample_world 18 (λ _, answers_prompt_raises 6))
               (initial_frame ∅) in
  run.1 = Propagated (OtherException "EOF when reading a line")
  ∧ failed run.2 = 0
  ∧ succeeded run.2 + failed run.2 + skipped run.2 = 1
  ∧ (∃ all_recipients,
       parse_recipients lowercase_address (RECIPIENTS_RAW live_config)
       = Ok all_recipients
       ∧ Z.of_nat (length all_recipients) - SKIP_FIRST_N live_config = 2)
  ∧ ∃ row, files run.2 !! LOG_FILE live_config
           = Some [AuditLogger.header; row].
Proof.
  split; [vm_compute; reflexivity|].
  split; [vm_compute; reflexivity|].
  split; [vm_compute; reflexivity|].
  split; [eexists; split; vm_compute; reflexivity|].
  eexists. vm_compute. reflexivity.
Qed.

(** C10, amended: every pass of the loop adds 1 to exactly one of
    [succeeded], [failed] and [skipped], puts exactly one row at the end of
    the audit file and leaves every other file as it was.  So at the end of
    a run that read its starting nonce the three counters add up to the
    number of rows the run appended, which is at most the number of
    recipients left after the skip; and when the run returns an exit status,
    it is exactly that number, and the status is 0 exactly when [failed] is
    0. *)
Theorem counters_cover_recipients tca gas_with_buffer cfg w fs n :
  let run := main tca gas_with_buffer cfg w (initial_frame fs) in
  w_start_nonce w = Ok n →
  CGetTransactionCount ∈ calls run.2 →
  (∀ sender chain_id decimals total i r fr,
     let pass := iteration gas_with_buffer cfg w sender chain_id decimals
                   total i r fr in
     one_counter_up fr pass.2
     ∧ (∀ path, path ≠ LOG_FILE cfg → files pass.2 !! path = files fr !! path)
     ∧ ∃ row, ∀ prior, files fr !! LOG_FILE cfg = Some prior →
                files pass.2 !! LOG_FILE cfg = Some (prior ++ [row]))
  ∧ ∃ all_recipients rows,
      parse_recipients tca (RECIPIENTS_RAW cfg) = Ok all_recipients
      ∧ files run.2 !! LOG_FILE cfg
        = Some (match fs !! LOG_FILE cfg with
                | None => [AuditLogger.header]
                | Some prior => prior
                end ++ rows)
      ∧ succeeded run.2 + failed run.2 + skipped run.2
        = Z.of_nat (length rows)
      ∧ (length rows
         ≤ length all_recipients - Z.to_nat (SKIP_FIRST_N cfg))%nat
      ∧ ∀ code, run.1 = Exit code →
          length rows
          = (length all_recipients - Z.to_nat (SKIP_FIRST_N cfg))%nat
          ∧ (code = 0 ↔ failed run.2 = 0).
Proof.
  intros run Hn Hnonce. split.
  - intros sender chain_id decimals total i r fr pass.
    destruct (iteration_spec gas_with_buffer cfg w sender chain_id decimals
                total i r fr) as (row & Hf & _ & Hcnt & _).
    fold pass in Hf. split; [done|]. split.
    + intros path Hpath. rewrite Hf. unfold AuditLogger.writerow.
      by rewrite lookup_alter_ne.
    + exists row. intros prior Hprior. rewrite Hf. unfold AuditLogger.writerow.
      by rewrite lookup_alter_eq, Hprior.
  - destruct (main_cases_pre gas_with_buffer cfg w tca fs)
      as [(_ & _ & _ & Hraise)
         |(all_recipients & n' & sender & chain_id & cs & bal & Hparse & _ & _
           & _ & _ & _ & _ & _ & H)].
    { destruct (Hraise Hnonce) as [e He]. congruence. }
    cbv zeta in H. destruct H as [Hrun Hout]. fold run in Hrun, Hout.
    destruct (transfer_loop_spec gas_with_buffer cfg w sender chain_id
                EXPECTED_DECIMALS
                (Z.of_nat (length (apply_skip cfg all_recipients)))
                (apply_skip cfg all_recipients) 1 (loop_start cfg n' cs fs))
      as (rows & Hfiles & _ & Hsum & Hle & Hlen & _).
    rewrite <- Hrun in Hfiles, Hsum, Hout.
    exists all_recipients, rows. split; [done|].
    split.
    { rewrite Hfiles. simpl files. rewrite append_rows_lookup, audit_enter_lookup.
      done. }
    split; [rewrite Hsum; simpl; lia|].
    rewrite <- apply_skip_length.
    split; [done|].
    intros code Hexit.
    destruct ((transfer_loop gas_with_buffer cfg w sender chain_id
                 EXPECTED_DECIMALS
                 (Z.of_nat (length (apply_skip cfg all_recipients))) 1
                 (apply_skip cfg all_recipients) (loop_start cfg n' cs fs)).1)
      as [[]|e]; [|congruence].
    split; [by apply Hlen|].
    rewrite Hexit in Hout. injection Hout as ->.
    destruct (failed run.2 =? 0) eqn:Hz.
    + apply Z.eqb_eq in Hz. done.
    + apply Z.eqb_neq in Hz. split; [discriminate | done].
Qed.

(** A live run over the two published recipients: the first transfer is
    confirmed, the receipt of the second does not arrive in time. *)
Lemma counters_cover_recipients_witness :
  let run := main lowercase_address gas_plus_15_percent live_config
               (sample_world 18
                  (λ i, if i =? 1 then smooth_answers 10 6
                        else answers_wait_raises (TimeExhausted "300 seconds") 7))
               (initial_frame ∅) in
  (run.1 = Exit 1 ∧ succeeded run.2 = 1 ∧ failed run.2 = 1 ∧ skipped run.2 = 0)
  ∧ ∃ all_recipients rows,
      parse_recipients lowercase_address (RECIPIENTS_RAW live_config)
      = Ok all_recipients
      ∧ files run.2 !! LOG_FILE live_config = Some ([AuditLogger.header] ++ rows)
      ∧ succeeded run.2 + failed run.2 + skipped run.2
        = Z.of_nat (length rows)
      ∧ length rows = (length all_recipients - 0)%nat
      ∧ (1 = 0 ↔ failed run.2 = 0).
Proof.
  split; [vm_compute; repeat split; reflexivity|].
  destruct (counters_cover_recipients lowercase_address gas_plus_15_percent
              live_config
              (sample_world 18
                 (λ i, if i =? 1 then smooth_answers 10 6
                       else answers_wait_raises
                              (TimeExhausted "300 seconds") 7))
              ∅ 5)
    as (_ & all_recipients & rows & Hparse & Hfiles & Hsum & _ & Hexit).
  - reflexivity.
  - vm_compute. in_list.
  - exists all_recipients, rows.
    split; [exact Hparse|]. split; [exact Hfiles|]. split; [exact Hsum|].
    apply (Hexit 1). vm_compute. reflexivity.
Defined.

(** * Further properties of the code *)

(** ** Fee selection on the other paths *)

(** Two states that differ in the grouping of their call lists only. *)
Ltac same_frame :=
  cbv [record_call with_calls set_nonce set_succeeded set_failed set_skipped
       set_sent_tx_hash set_receipt set_error_msg set_status set_files
       nonce succeeded failed skipped sent_tx_hash receipt error_msg status
       files calls];
  f_equal; rewrite <- ?app_assoc; reflexivity.

Lemma pick_fees_calls cfg a fr :
  (pick_fees cfg a fr).2 = with_calls (calls fr ++ fee_calls a) fr.
Proof.
  unfold pick_fees, fee_calls, is_eip1559, bind, call, ret, raise. simpl.
  destruct (a_get_block a 0%nat) as [[[| |v0]]|e0]; simpl.
  - destruct (a_gas_price a); simpl; same_frame.
  - destruct (a_gas_price a); simpl; same_frame.
  - destruct (a_get_block a 1%nat) as [[[| |v1]]|e1]; simpl;
      try destruct (to_wei_gwei _); simpl; same_frame.
  - same_frame.
Qed.

(** X1: on a chain whose latest block has no base fee (the key is missing or
    holds None), [pick_fees] asks for the block once and for the gas price
    once, and answers the node's gas price as it is, or fails as the gas
    price query fails; the multiplier and the priority fee play no part. *)
Theorem pick_fees_legacy cfg a fr b :
  a_get_block a 0%nat = Ok b →
  baseFeePerGas b = Absent ∨ baseFeePerGas b = Null →
  pick_fees cfg a fr
  = (match a_gas_price a with
     | Ok gas_price => Ok (Legacy gas_price)
     | Raise e => Raise e
     end,
     with_calls (calls fr ++ [CGetBlock; CGasPrice]) fr).
Proof.
  intros Hb Hfee.
  rewrite (surjective_pairing (pick_fees cfg a fr)), pick_fees_calls.
  unfold fee_calls. rewrite Hb.
  unfold pick_fees, is_eip1559, bind, call, ret. rewrite Hb. simpl.
  destruct Hfee as [-> | ->]; by destruct (a_gas_price a).
Qed.

Lemma pick_fees_legacy_witness :
  pick_fees default_config (legacy_answers 7 5) (initial_frame ∅)
  = (Ok (Legacy 7),
     with_calls ([] ++ [CGetBlock; CGasPrice]) (initial_frame ∅)).
Proof.
  apply (pick_fees_legacy default_config (legacy_answers 7 5) (initial_frame ∅)
           {| baseFeePerGas := Absent |}).
  - reflexivity.
  - by left.
Defined.

Lemma quot_nonneg a b : 0 ≤ a → 0 ≤ b → 0 ≤ a `quot` b.
Proof.
  intros Ha Hb. destruct (decide (b = 0)) as [->|Hne].
  - by destruct a.
  - apply Z.quot_pos; lia.
Qed.

Lemma round_half_even_nonneg c k : 0 ≤ c → 0 ≤ Dec.round_half_even c k.
Proof.
  intros Hc. unfold Dec.round_half_even.
  assert (0 ≤ c / 10 ^ k).
  { destruct (decide (0 < 10 ^ k)); [apply Z.div_pos; lia|].
    assert (10 ^ k = 0) as ->.
    { pose proof (Z.pow_nonneg 10 k). lia. }
    by rewrite Z.div_0_r. }
  repeat case_match; lia.
Qed.

Lemma decimal_to_int_nonneg c e : 0 ≤ c → 0 ≤ Dec.to_int {| coef := c; expo := e |}.
Proof.
  intros Hc. unfold Dec.to_int. simpl coef. simpl expo.
  destruct (0 <=? e).
  - pose proof (Z.pow_nonneg 10 e). nia.
  - apply quot_nonneg; [done|]. apply Z.pow_nonneg. lia.
Qed.

Lemma int_of_product_nonneg base m :
  0 ≤ base → 0 ≤ coef m → 0 ≤ Dec.to_int (Dec.mul (Dec.of_int base) m).
Proof.
  intros Hb Hm. unfold Dec.mul, Dec.of_int. simpl coef. simpl expo.
  assert (0 ≤ base * coef m) as Hc by nia.
  unfold Dec.round_to_context.
  destruct (Dec.num_digits (Z.abs (base * coef m)) - Dec.PREC <=? 0).
  - by apply decimal_to_int_nonneg.
  - apply decimal_to_int_nonneg.
    pose proof (round_half_even_nonneg (Z.abs (base * coef m))
                  (Dec.num_digits (Z.abs (base * coef m)) - Dec.PREC)
                  (Z.abs_nonneg _)) as Hr.
    assert (0 ≤ Z.sgn (base * coef m)) as Hs by (apply Z.sgn_nonneg; lia).
    nia.
Qed.

(** X2: whenever [pick_fees] answers fee-market fields for a base fee and a
    multiplier that are not negative, the priority fee is not negative and
    does not exceed [maxFeePerGas], also when the decimal product is
    rounded. *)
Theorem pick_fees_priority_within_max cfg a fr b1 base max_fee priority :
  (pick_fees cfg a fr).1 = Ok (EIP1559 max_fee priority) →
  a_get_block a 1%nat = Ok b1 →
  baseFeePerGas b1 = Fee base →
  0 ≤ base →
  0 ≤ coef (MAX_FEE_MULTIPLIER cfg) →
  0 ≤ priority ≤ max_fee.
Proof.
  intros Hres Hb1 Hfee Hbase Hm.
  unfold pick_fees, is_eip1559, bind, call, ret, raise in Hres. simpl in Hres.
  destruct (a_get_block a 0%nat) as [[[| |v0]]|e0]; simpl in Hres;
    [by destruct (a_gas_price a)|by destruct (a_gas_price a)| |done].
  rewrite Hb1 in Hres. simpl in Hres. rewrite Hfee in Hres. simpl in Hres.
  destruct (to_wei_gwei _) as [p|e] eqn:Hp; simpl in Hres; [|done].
  injection Hres as <- <-.
  pose proof (int_of_product_nonneg base (MAX_FEE_MULTIPLIER cfg) Hbase Hm).
  assert (0 ≤ p); [|lia].
  unfold to_wei_gwei in Hp.
  destruct ((coef _ <? 0) || _) eqn:Hrange; [done|].
  apply orb_false_iff in Hrange as [Hneg _]. apply Z.ltb_ge in Hneg.
  injection Hp as <-. by apply decimal_to_int_nonneg.
Qed.

Lemma pick_fees_priority_within_max_witness :
  (pick_fees default_config (smooth_answers (10 ^ 38) 5) (initial_frame ∅)).1
  = Ok (EIP1559 200000000000000000000000000001500000000 1500000000)
  ∧ 0 ≤ 1500000000 ≤ 200000000000000000000000000001500000000.
Proof.
  split; [reflexivity|].
  apply (pick_fees_priority_within_max default_config
           (smooth_answers (10 ^ 38) 5) (initial_frame ∅)
           {| baseFeePerGas := Fee (10 ^ 38) |} (10 ^ 38)
           200000000000000000000000000001500000000 1500000000);
    first [reflexivity | by vm_compute].
Defined.

(** X3: [pick_fees] reads the latest block twice and takes the base fee from
    the second read; when the first read shows a base fee and the second one
    does not (the key is missing or holds None), it raises, after these two
    reads and without asking for the gas price. *)
Theorem pick_fees_second_read_decides cfg a fr b0 v0 b1 :
  a_get_block a 0%nat = Ok b0 →
  baseFeePerGas b0 = Fee v0 →
  a_get_block a 1%nat = Ok b1 →
  baseFeePerGas b1 = Absent ∨ baseFeePerGas b1 = Null →
  (∃ msg, (pick_fees cfg a fr).1 = Raise (OtherException msg))
  ∧ (pick_fees cfg a fr).2 = with_calls (calls fr ++ [CGetBlock; CGetBlock]) fr.
Proof.
  intros H0 Hf0 H1 Hf1. split.
  - unfold pick_fees, is_eip1559, bind, call, ret, raise.
    rewrite H0. simpl. rewrite Hf0, H1. simpl.
    destruct Hf1 as [-> | ->]; by eexists.
  - rewrite pick_fees_calls. unfold fee_calls. by rewrite H0, Hf0.
Qed.

Lemma pick_fees_second_read_decides_witness :
  (∃ msg, (pick_fees default_config answers_fee_vanishes (initial_frame ∅)).1
          = Raise (OtherException msg))
  ∧ (pick_fees default_config answers_fee_vanishes (initial_frame ∅)).2
    = with_calls ([] ++ [CGetBlock; CGetBlock]) (initial_frame ∅).
Proof.
  apply (pick_fees_second_read_decides default_config answers_fee_vanishes
           (initial_frame ∅) {| baseFeePerGas := Fee 10 |} 10
           {| baseFeePerGas := Null |}); first [reflexivity | by right].
Defined.

(** ** Amounts in token units *)

(** X4: the units the balance check requires are the sum of the amounts,
    scaled once by [10 ** decimals]; for amounts that are positive and a
    list that is not empty they are at least one whole token. *)
Theorem required_units_scales_total decimals (recipients : list Recipient) :
  required_units decimals recipients
  = token_units (total_tokens recipients) decimals
  ∧ (0 ≤ decimals → Forall (λ r : Recipient, 0 < r.2) recipients →
     recipients ≠ [] → 10 ^ decimals ≤ required_units decimals recipients).
Proof.
  assert (required_units decimals recipients
          = token_units (total_tokens recipients) decimals) as Hsum.
  { unfold required_units, total_tokens, token_units.
    induction recipients as [|[addr amt] rest IH]; [done|].
    rewrite !fmap_cons. cbn [foldr snd]. rewrite IH. ring. }
  split; [exact Hsum|].
  intros Hd Hpos Hne. rewrite Hsum. unfold token_units.
  assert (1 ≤ total_tokens recipients) as Htotal.
  { clear Hsum. unfold total_tokens.
    destruct Hpos as [|[addr amt] rest Hamt Hrest]; [done|].
    rewrite fmap_cons. cbn [foldr snd] in *.
    assert (0 ≤ foldr Z.add 0 (snd <$> rest)); [|lia].
    clear Hne Hamt.
    induction Hrest as [|[a' m'] rest' Hm' _ IH]; [done|].
    rewrite fmap_cons. cbn [foldr snd] in *. lia. }
  pose proof (Z.pow_pos_nonneg 10 decimals). nia.
Qed.

(** ** The calls of one pass *)

Section TraceFacts.

Variable gas_with_buffer : Z → Z.
Variable cfg : Config.
Variable w : World.

Lemma on_exception_calls e cs fr :
  on_exception e (with_calls cs fr) = (Ok tt, with_calls cs (after_exception e fr)).
Proof. by destruct e. Qed.

(** The [try] statement, with its trace. *)
Lemma guarded_attempt_calls a sender to_addr amt_units chain_id fr :
  try_except (send_and_confirm gas_with_buffer cfg a sender to_addr
                amt_units chain_id) on_exception fr
  = (Ok tt,
     with_calls (calls fr ++ attempt_calls gas_with_buffer cfg a sender to_addr
                              amt_units chain_id fr)
       (attempt_result cfg a fr)).
Proof.
  unfold attempt_result, attempt_calls, attempt_tx, send_and_confirm, try_except.
  unfold bind at 1.
  pose proof (pick_fees_calls cfg a fr) as Hfr.
  destruct (pick_fees cfg a fr) as [[ff|e] fr0] eqn:Hpf; simpl in Hfr; subst fr0;
    simpl.
  2: { rewrite on_exception_calls, app_nil_r. done. }
  unfold bind, call, ret, read, modify. simpl.
  destruct (a_estimate_gas a) as [est|ee]; simpl.
  all: destruct (a_build_transaction a) as [[]|eb]; simpl;
    [|destruct eb; simpl; f_equal; same_frame].
  all: destruct (a_sign_transaction a) as [raw|es]; simpl;
    [|destruct es; simpl; f_equal; same_frame].
  all: destruct (a_send_raw_transaction a) as [h|ex]; simpl;
    [|destruct ex; simpl; f_equal; same_frame].
  all: destruct (a_wait_for_receipt a) as [rc|ew]; simpl;
    [|destruct ew; simpl; f_equal; same_frame].
  all: unfold after_receipt; destruct (rc_status rc =? 1); simpl;
    destruct (a_process_receipt a) as [[]|]; simpl; f_equal; same_frame.
Qed.

(** A live pass, with its trace: the calls of the [try] statement, then at
    most a query of the pending count and a prompt. *)
Lemma iteration_live_calls sender chain_id decimals total i to_addr amt fr :
  DRY_RUN cfg = false →
  let a := w_attempt w i in
  let fr1 := attempt_result cfg a (fresh_transfer fr) in
  let run := iteration gas_with_buffer cfg w sender chain_id decimals total
               i (to_addr, amt) fr in
  ∃ tail,
    calls run.2
    = calls fr
      ++ attempt_calls gas_with_buffer cfg a sender to_addr
           (token_units amt decimals) chain_id (fresh_transfer fr)
      ++ tail
    ∧ (tail = [] ∨ tail = [CPressEnter] ∨ tail = [CGetTransactionCount]
       ∨ tail = [CGetTransactionCount; CPressEnter])
    ∧ (CGetTransactionCount ∈ tail
       ↔ bool_decide (sent_tx_hash fr1 ≠ None)
         && bool_decide (status fr1 ∈ BROADCAST_STATUSES) = false).
Proof.
  intros Hdry a fr1 run. subst run. unfold iteration. rewrite Hdry.
  fold a.
  pose proof (guarded_attempt_calls a sender to_addr (token_units amt decimals)
                chain_id (fresh_transfer fr)) as Hg.
  fold fr1 in Hg.
  set (ac := attempt_calls gas_with_buffer cfg a sender to_addr
               (token_units amt decimals) chain_id (fresh_transfer fr)) in *.
  clearbody ac fr1.
  unfold audit_log, nonce_handling. unfold bind, modify, read, call, ret.
  cbv beta iota. fold (fresh_transfer fr). rewrite Hg. cbv beta iota.
  change (sent_tx_hash (id _)) with (sent_tx_hash fr1).
  change (status (id _)) with (status fr1).
  destruct (bool_decide (sent_tx_hash fr1 ≠ None)
            && bool_decide (status fr1 ∈ BROADCAST_STATUSES)).
  - destruct (0 <? total - i); [destruct (a_press_enter a)|]; simpl.
    + exists [CPressEnter]. split; [by rewrite <- app_assoc|].
      split; [tauto|]. split; [intros H; not_in_list H | done].
    + exists [CPressEnter]. split; [by rewrite <- app_assoc|].
      split; [tauto|]. split; [intros H; not_in_list H | done].
    + exists []. split; [by rewrite app_nil_r|].
      split; [tauto|]. split; [intros H; not_in_list H | done].
  - destruct (a_get_transaction_count a) as [n|e]; cbv beta iota;
      [destruct (0 <? total - i); [destruct (a_press_enter a)|]|]; simpl.
    + exists [CGetTransactionCount; CPressEnter].
      split; [by rewrite <- !app_assoc|]. split; [tauto|].
      split; [done | intros _; in_list].
    + exists [CGetTransactionCount; CPressEnter].
      split; [by rewrite <- !app_assoc|]. split; [tauto|].
      split; [done | intros _; in_list].
    + exists [CGetTransactionCount].
      split; [by rewrite <- !app_assoc|]. split; [tauto|].
      split; [done | intros _; in_list].
    + exists [CGetTransactionCount].
      split; [by rewrite <- !app_assoc|]. split; [tauto|].
      split; [done | intros _; in_list].
Qed.

End TraceFacts.

(** Every case of a membership in a list that is written out. *)
Ltac list_cases H :=
  repeat (apply elem_of_cons in H as [H|H]);
  [.. | by apply elem_of_nil in H].

(** The calls of a [try] statement, for every way the ledger may answer. *)
Ltac open_attempt_calls a :=
  unfold attempt_calls, fee_calls;
  destruct (a_get_block a 0%nat) as [[[| |?]]|?];
  match goal with
  | |- context [(pick_fees ?cfg a ?fr).1] =>
      destruct ((pick_fees cfg a fr).1) as [?|?] eqn:?
  end;
  destruct (a_build_transaction a) as [?|?] eqn:?;
  destruct (a_sign_transaction a) as [?|?] eqn:?;
  destruct (a_send_raw_transaction a) as [?|?] eqn:?;
  destruct (a_wait_for_receipt a) as [?|?] eqn:?;
  cbn [app].

(** X5: in a live pass, every transaction that is built or signed goes to
    the recipient of the pass with its amount in token units, from the
    sender, with the nonce the pass started with, the chain id and the fee
    fields [pick_fees] answered; its gas limit is the buffered estimate, or
    120000 when the estimate raised. *)
Theorem pass_transaction_fields gas_with_buffer cfg w sender chain_id decimals
    total i to_addr amt fr :
  DRY_RUN cfg = false →
  let run := iteration gas_with_buffer cfg w sender chain_id decimals total i
               (to_addr, amt) fr in
  ∃ cs,
    calls run.2 = calls fr ++ cs
    ∧ ∀ tx, CBuildTransaction tx ∈ cs ∨ CSignTransaction tx ∈ cs →
        tx_to tx = to_addr
        ∧ tx_amount tx = token_units amt decimals
        ∧ tx_from tx = sender
        ∧ tx_nonce tx = nonce fr
        ∧ tx_chainId tx = chain_id
        ∧ tx_gas tx = match a_estimate_gas (w_attempt w i) with
                      | Ok est_gas => gas_with_buffer est_gas
                      | Raise _ => FALLBACK_GAS_LIMIT
                      end
        ∧ (pick_fees cfg (w_attempt w i) fr).1 = Ok (tx_fees tx).
Proof.
  intros Hdry run.
  destruct (iteration_live_calls gas_with_buffer cfg w sender chain_id decimals
              total i to_addr amt fr Hdry) as (tail & Hcalls & Htail & _).
  fold run in Hcalls. eexists. split; [exact Hcalls|].
  intros tx Htx.
  assert (∃ ff, (pick_fees cfg (w_attempt w i) (fresh_transfer fr)).1 = Ok ff
                ∧ tx = attempt_tx gas_with_buffer (w_attempt w i) sender
                         to_addr (token_units amt decimals) chain_id
                         (nonce fr) ff) as (ff & Hff & ->).
  { rewrite !elem_of_app in Htx.
    destruct Htx as [[Hin|Hin]|[Hin|Hin]].
    2,4: destruct Htail as [->|[->|[->| ->]]]; list_cases Hin; discriminate.
    all: revert Hin; open_attempt_calls (w_attempt w i); intros Hin;
      list_cases Hin; try discriminate; simplify_eq; by eexists. }
  rewrite (pick_fees_result cfg _ fr (fresh_transfer fr)), Hff. done.
Qed.

Lemma pass_transaction_fields_witness :
  let run := iteration gas_plus_15_percent live_config
               (sample_world 18 (λ _, answers_estimate_raises)) SENDER 1 18 1 1
               ("0x000000000000000000000000000000000000dead", 1000)
               (set_nonce 5 (initial_frame ∅)) in
  ∃ cs,
    calls run.2 = [] ++ cs
    ∧ ∀ tx, CBuildTransaction tx ∈ cs ∨ CSignTransaction tx ∈ cs →
        tx_to tx = "0x000000000000000000000000000000000000dead"
        ∧ tx_amount tx = token_units 1000 18
        ∧ tx_from tx = SENDER
        ∧ tx_nonce tx = 5
        ∧ tx_chainId tx = 1
        ∧ tx_gas tx = 120000
        ∧ (pick_fees live_config answers_estimate_raises
             (set_nonce 5 (initial_frame ∅))).1 = Ok (tx_fees tx).
Proof.
  apply (pass_transaction_fields gas_plus_15_percent live_config
           (sample_world 18 (λ _, answers_estimate_raises)) SENDER 1 18 1 1
           "0x000000000000000000000000000000000000dead" 1000
           (set_nonce 5 (initial_frame ∅))).
  reflexivity.
Defined.

(** X6: a live pass broadcasts at most once; what it broadcasts is the raw
    transaction the signing step answered, after that transaction was
    signed; and it waits only for the hash the broadcast answered. *)
Theorem pass_broadcasts_once gas_with_buffer cfg w sender chain_id decimals
    total i to_addr amt fr :
  DRY_RUN cfg = false →
  let run := iteration gas_with_buffer cfg w sender chain_id decimals total i
               (to_addr, amt) fr in
  ∃ cs,
    calls run.2 = calls fr ++ cs
    ∧ (length (filter (λ c, is_broadcast c = true) cs) ≤ 1)%nat
    ∧ (∀ raw, CSendRawTransaction raw ∈ cs →
         a_sign_transaction (w_attempt w i) = Ok raw
         ∧ ∃ tx, CSignTransaction tx ∈ cs)
    ∧ (∀ h, CWaitForReceipt h ∈ cs →
         a_send_raw_transaction (w_attempt w i) = Ok h
         ∧ ∃ raw, CSendRawTransaction raw ∈ cs).
Proof.
  intros Hdry run.
  destruct (iteration_live_calls gas_with_buffer cfg w sender chain_id decimals
              total i to_addr amt fr Hdry) as (tail & Hcalls & Htail & _).
  fold run in Hcalls. eexists. split; [exact Hcalls|].
  split; [|split].
  - rewrite filter_app, length_app.
    assert (length (filter (λ c, is_broadcast c = true) tail) = 0%nat) as ->
      by (by destruct Htail as [->|[->|[->| ->]]]).
    open_attempt_calls (w_attempt w i); vm_compute; lia.
  - intros raw Hin. rewrite elem_of_app in Hin. destruct Hin as [Hin|Hin].
    2: destruct Htail as [->|[->|[->| ->]]]; list_cases Hin; discriminate.
    revert Hin. open_attempt_calls (w_attempt w i); intros Hin;
      list_cases Hin; try discriminate; simplify_eq;
      (split; [done|]); eexists; in_list.
  - intros h Hin. rewrite elem_of_app in Hin. destruct Hin as [Hin|Hin].
    2: destruct Htail as [->|[->|[->| ->]]]; list_cases Hin; discriminate.
    revert Hin. open_attempt_calls (w_attempt w i); intros Hin;
      list_cases Hin; try discriminate; simplify_eq;
      (split; [done|]); eexists; in_list.
Qed.

Lemma pass_broadcasts_once_witness :
  let run := iteration gas_plus_15_percent live_config
               (sample_world 18 (λ _, smooth_answers 10 5)) SENDER 1 18 1 1
               ("0x000000000000000000000000000000000000dead", 1000)
               (set_nonce 5 (initial_frame ∅)) in
  ∃ cs,
    calls run.2 = [] ++ cs
    ∧ (length (filter (λ c, is_broadcast c = true) cs) ≤ 1)%nat
    ∧ (∀ raw, CSendRawTransaction raw ∈ cs →
         a_sign_transaction (smooth_answers 10 5) = Ok raw
         ∧ ∃ tx, CSignTransaction tx ∈ cs)
    ∧ (∀ h, CWaitForReceipt h ∈ cs →
         a_send_raw_transaction (smooth_answers 10 5) = Ok h
         ∧ ∃ raw, CSendRawTransaction raw ∈ cs).
Proof.
  apply (pass_broadcasts_once gas_plus_15_percent live_config
           (sample_world 18 (λ _, smooth_answers 10 5)) SENDER 1 18 1 1
           "0x000000000000000000000000000000000000dead" 1000
           (set_nonce 5 (initial_frame ∅))).
  reflexivity.
Defined.

Lemma attempt_calls_no_nonce_query gas_with_buffer cfg a sender to_addr
    amt_units chain_id fr :
  CGetTransactionCount
    ∉ attempt_calls gas_with_buffer cfg a sender to_addr amt_units chain_id fr.
Proof.
  open_attempt_calls a; intros Hin; list_cases Hin; discriminate.
Qed.

(** X7: a live pass asks the ledger for the pending transaction count
    exactly when it ends without a transaction hash or with a status other
    than SUCCESS, REVERTED and TIMEOUT; after a broadcast with one of these
    three it makes no such query. *)
Theorem pass_queries_nonce_iff gas_with_buffer cfg w sender chain_id decimals
    total i to_addr amt fr :
  DRY_RUN cfg = false →
  let run := iteration gas_with_buffer cfg w sender chain_id decimals total i
               (to_addr, amt) fr in
  ∃ cs,
    calls run.2 = calls fr ++ cs
    ∧ (CGetTransactionCount ∈ cs
       ↔ sent_tx_hash run.2 = None ∨ status run.2 ∉ BROADCAST_STATUSES).
Proof.
  intros Hdry run.
  destruct (iteration_live_calls gas_with_buffer cfg w sender chain_id decimals
              total i to_addr amt fr Hdry) as (tail & Hcalls & _ & Hquery).
  destruct (iteration_live gas_with_buffer cfg w sender chain_id decimals total
              i to_addr amt fr Hdry) as (_ & _ & _ & _ & Hsent & Hstatus & _).
  fold run in Hcalls, Hsent, Hstatus. rewrite <- Hsent, <- Hstatus in Hquery.
  eexists. split; [exact Hcalls|].
  rewrite elem_of_app, Hquery, andb_false_iff, !bool_decide_eq_false.
  split.
  - intros [Hin|[Hnone|Hst]].
    + by destruct (attempt_calls_no_nonce_query _ _ _ _ _ _ _ _ Hin).
    + left. by destruct (sent_tx_hash run.2); [destruct Hnone|].
    + by right.
  - intros [Hnone|Hst]; right; [left|by right].
    rewrite Hnone. by intros H.
Qed.

Lemma pass_queries_nonce_iff_witness :
  let run := iteration gas_plus_15_percent live_config
               (sample_world 18 (λ _, smooth_answers 10 5)) SENDER 1 18 2 1
               ("0x000000000000000000000000000000000000dead", 1000)
               (set_nonce 5 (initial_frame ∅)) in
  ∃ cs,
    calls run.2 = [] ++ cs
    ∧ (CGetTransactionCount ∈ cs
       ↔ sent_tx_hash run.2 = None ∨ status run.2 ∉ BROADCAST_STATUSES).
Proof.
  apply (pass_queries_nonce_iff gas_plus_15_percent live_config
           (sample_world 18 (λ _, smooth_answers 10 5)) SENDER 1 18 2 1
           "0x000000000000000000000000000000000000dead" 1000
           (set_nonce 5 (initial_frame ∅))).
  reflexivity.
Defined.

(** ** The rows and the counters of a run *)

Section RowFacts.

Variable gas_with_buffer : Z → Z.
Variable cfg : Config.
Variable w : World.

Lemma passed_not_failed st : st ∈ PASSED_STATUSES → st ∈ FAILED_STATUSES → False.
Proof.
  intros Hp Hf. unfold PASSED_STATUSES in Hp.
  list_cases Hp; subst st; not_in_list Hf.
Qed.

(** The row of a pass and what the pass does to [failed]. *)
Lemma iteration_row sender chain_id decimals total i r fr :
  let run := iteration gas_with_buffer cfg w sender chain_id decimals total
               i r fr in
  ∃ row st,
    files run.2 = AuditLogger.writerow (LOG_FILE cfg) row (files fr)
    ∧ row_for (i + SKIP_FIRST_N cfg) r decimals row
    ∧ AuditLogger.status_of row = Some (CellStr st)
    ∧ (st ∈ PASSED_STATUSES ∧ failed run.2 = failed fr
       ∨ st ∈ FAILED_STATUSES ∧ failed run.2 = failed fr + 1).
Proof.
  destruct r as [to_addr amt]. intros run.
  destruct (DRY_RUN cfg) eqn:Hdry.
  - subst run. unfold iteration. rewrite Hdry.
    eexists _, _. split; [reflexivity|]. split; [by repeat split|].
    split; [reflexivity|]. left. split; [in_list | done].
  - destruct (iteration_live gas_with_buffer cfg w sender chain_id decimals
                total i to_addr amt fr Hdry) as (Hf & _ & Hfa & _).
    fold run in Hf, Hfa.
    eexists _, _. split; [exact Hf|]. split; [by repeat split|].
    split; [reflexivity|]. rewrite Hfa.
    destruct (attempt_result_status cfg (w_attempt w i) fr)
      as [(-> & _ & ->)|(Hst & _ & ->)].
    + left. split; [in_list | done].
    + right. done.
Qed.

Lemma transfer_loop_rows sender chain_id decimals total recipients :
  ∀ i fr,
    let lp := transfer_loop gas_with_buffer cfg w sender chain_id decimals
                total i recipients fr in
    ∃ rows,
      files lp.2 = append_rows (LOG_FILE cfg) rows (files fr)
      ∧ (lp.1 = Ok tt → length rows = length recipients)
      ∧ (∀ (k : nat) row, rows !! k = Some row →
           ∃ r, recipients !! k = Some r
                ∧ row_for (i + Z.of_nat k + SKIP_FIRST_N cfg) r decimals row)
      ∧ failed fr ≤ failed lp.2
      ∧ (failed lp.2 = failed fr ↔ Forall row_passed rows).
Proof.
  induction recipients as [|r rest IH]; intros i fr lp.
  - exists []. subst lp. simpl. rewrite append_rows_nil.
    split; [done|]. split; [done|]. split; [by intros k row Hk|].
    split; [lia|]. split; [constructor | done].
  - subst lp. simpl. unfold bind.
    destruct (iteration_row sender chain_id decimals total i r fr)
      as (row & st & Hf & Hrow & Hst & Hcnt).
    assert (row_passed row ↔ st ∈ PASSED_STATUSES) as Hpassed.
    { split; [|intros; by exists st].
      intros (st' & Hst' & Hin). congruence. }
    destruct (iteration gas_with_buffer cfg w sender chain_id decimals total
                i r fr) as [[[]|e] fr1] eqn:Hit; simpl in Hf, Hcnt.
    + destruct (IH (i + 1) fr1)
        as (rows & Hf' & Hlen & Hcontent & Hle & Hiff).
      exists (row :: rows).
      split; [rewrite Hf', Hf; apply append_rows_cons|].
      split; [intros H; simpl; by rewrite (Hlen H)|].
      split.
      { intros [|k] row' Hk; simpl in Hk.
        - simplify_eq. exists r. split; [done|].
          by replace (i + Z.of_nat 0 + SKIP_FIRST_N cfg)
            with (i + SKIP_FIRST_N cfg) by lia.
        - destruct (Hcontent k row' Hk) as (r' & Hr' & Hfor).
          exists r'. split; [done|].
          by replace (i + Z.of_nat (S k) + SKIP_FIRST_N cfg)
            with (i + 1 + Z.of_nat k + SKIP_FIRST_N cfg) by lia. }
      split; [destruct Hcnt as [[_ ?]|[_ ?]]; lia|].
      rewrite Forall_cons, Hpassed, <- Hiff.
      destruct Hcnt as [[Hin Hfa]|[Hin Hfa]].
      * split; [intros; split; [done|lia] | intros [_ ?]; lia].
      * split; [lia|]. intros [Hp _]. destruct (passed_not_failed st Hp Hin).
    + exists [row]. simpl.
      split; [exact Hf|]. split; [done|].
      split.
      { intros [|k] row' Hk; simpl in Hk; [|done].
        simplify_eq. exists r. split; [done|].
        by replace (i + Z.of_nat 0 + SKIP_FIRST_N cfg)
          with (i + SKIP_FIRST_N cfg) by lia. }
      split; [destruct Hcnt as [[_ ?]|[_ ?]]; lia|].
      rewrite Forall_cons, Hpassed.
      destruct Hcnt as [[Hin Hfa]|[Hin Hfa]].
      * split; [intros; split; [done|constructor] | done].
      * split; [lia|]. intros [Hp _]. destruct (passed_not_failed st Hp Hin).
Qed.

End RowFacts.

(** ** What a run needs before it enters the loop *)

Lemma apply_skip_lookup cfg (all_recipients : list Recipient) (k : nat) :
  0 ≤ SKIP_FIRST_N cfg →
  apply_skip cfg all_recipients !! k
  = all_recipients !! (Z.to_nat (SKIP_FIRST_N cfg) + k)%nat.
Proof.
  intros Hskip. unfold apply_skip. destruct (0 <? SKIP_FIRST_N cfg) eqn:Hs.
  - by rewrite lookup_drop.
  - apply Z.ltb_ge in Hs. by replace (SKIP_FIRST_N cfg) with 0 by lia.
Qed.

(** X8: in a run that read its starting nonce, with
    a skip count that is not negative, the rows appended to the audit file
    follow the recipients left after the skip, one by one and in order; each
    row carries the address and the amount of its recipient, the amount
    times 10^18 as raw amount, and as transfer number the position of the
    recipient in the full list, counted from 1; this also holds for the rows
    written before an exception ends the run. *)
Theorem rows_follow_recipients tca gas_with_buffer cfg w fs n :
  let run := main tca gas_with_buffer cfg w (initial_frame fs) in
  0 ≤ SKIP_FIRST_N cfg →
  w_start_nonce w = Ok n →
  CGetTransactionCount ∈ calls run.2 →
  ∃ all_recipients rows,
    parse_recipients tca (RECIPIENTS_RAW cfg) = Ok all_recipients
    ∧ files run.2 !! LOG_FILE cfg
      = Some (match fs !! LOG_FILE cfg with
              | None => [AuditLogger.header]
              | Some prior => prior
              end ++ rows)
    ∧ ∀ (k : nat) row, rows !! k = Some row →
        ∃ r, all_recipients !! (Z.to_nat (SKIP_FIRST_N cfg) + k)%nat = Some r
             ∧ row_for (Z.of_nat (Z.to_nat (SKIP_FIRST_N cfg) + k) + 1) r
                 EXPECTED_DECIMALS row.
Proof.
  intros run Hskip Hnonce Hcall.
  destruct (main_cases_pre gas_with_buffer cfg w tca fs)
    as [(_ & _ & _ & Hraise)
       |(all_recipients & n' & sender & chain_id & cs & b & Hparse & _ & _ & _
         & _ & _ & _ & _ & H)].
  { destruct (Hraise Hcall) as [e He]. congruence. }
  cbv zeta in H. destruct H as [Hrun _]. fold run in Hrun.
  destruct (transfer_loop_rows gas_with_buffer cfg w sender chain_id
              EXPECTED_DECIMALS
              (Z.of_nat (length (apply_skip cfg all_recipients)))
              (apply_skip cfg all_recipients) 1 (loop_start cfg n' cs fs))
    as (rows & Hfiles & _ & Hcontent & _).
  exists all_recipients, rows. split; [done|]. split.
  - rewrite Hrun, Hfiles. simpl files.
    by rewrite append_rows_lookup, audit_enter_lookup.
  - intros k row Hk. destruct (Hcontent k row Hk) as (r & Hr & Hfor).
    exists r. rewrite <- apply_skip_lookup by done. split; [done|].
    replace (Z.of_nat (Z.to_nat (SKIP_FIRST_N cfg) + k) + 1)
      with (1 + Z.of_nat k + SKIP_FIRST_N cfg) by lia.
    done.
Qed.

Lemma rows_follow_recipients_witness :
  let run := main lowercase_address gas_plus_15_percent resumed_config
               (sample_world 18 (λ _, smooth_answers 10 5)) (initial_frame ∅) in
  ∃ all_recipients rows,
    parse_recipients lowercase_address (RECIPIENTS_RAW resumed_config)
    = Ok all_recipients
    ∧ files run.2 !! LOG_FILE resumed_config
      = Some ([AuditLogger.header] ++ rows)
    ∧ ∀ (k : nat) row, rows !! k = Some row →
        ∃ r, all_recipients !! (1 + k)%nat = Some r
             ∧ row_for (Z.of_nat (1 + k) + 1) r 18 row.
Proof.
  refine (rows_follow_recipients lowercase_address gas_plus_15_percent
            resumed_config (sample_world 18 (λ _, smooth_answers 10 5)) ∅ 5
            _ _ _).
  - vm_compute; discriminate.
  - reflexivity.
  - vm_compute. in_list.
Defined.

(** X9: a run that read its starting nonce and returns exits with status 0
    exactly when every row it appended has the status SUCCESS or DRY_RUN;
    one REVERTED, TIMEOUT, CONTRACT_ERROR or ERROR row makes it exit with
    1. *)
Theorem exit_status_reflects_rows tca gas_with_buffer cfg w fs code :
  let run := main tca gas_with_buffer cfg w (initial_frame fs) in
  run.1 = Exit code →
  CGetTransactionCount ∈ calls run.2 →
  ∃ rows,
    files run.2 !! LOG_FILE cfg
    = Some (match fs !! LOG_FILE cfg with
            | None => [AuditLogger.header]
            | Some prior => prior
            end ++ rows)
    ∧ (code = 0 ↔ Forall row_passed rows)
    ∧ (code = 0 ∨ code = 1).
Proof.
  intros run Hexit Hcall.
  destruct (main_cases gas_with_buffer cfg w tca fs)
    as [(_ & _ & _ & Hno)
       |(all_recipients & n & sender & chain_id & cs & _ & _ & _ & H)].
  { exfalso. apply Hno; [by exists code | done]. }
  cbv zeta in H. destruct H as [Hrun Hout]. fold run in Hrun, Hout.
  destruct (transfer_loop_rows gas_with_buffer cfg w sender chain_id
              EXPECTED_DECIMALS
              (Z.of_nat (length (apply_skip cfg all_recipients)))
              (apply_skip cfg all_recipients) 1 (loop_start cfg n cs fs))
    as (rows & Hfiles & _ & _ & _ & Hiff).
  rewrite <- Hrun in Hfiles, Hiff, Hout. simpl failed in Hiff.
  exists rows. split.
  { rewrite Hfiles. simpl files.
    by rewrite append_rows_lookup, audit_enter_lookup. }
  destruct ((transfer_loop gas_with_buffer cfg w sender chain_id
               EXPECTED_DECIMALS
               (Z.of_nat (length (apply_skip cfg all_recipients))) 1
               (apply_skip cfg all_recipients) (loop_start cfg n cs fs)).1)
    as [[]|e]; [|congruence].
  rewrite Hexit in Hout. injection Hout as ->. rewrite <- Hiff.
  destruct (failed run.2 =? 0) eqn:Hz.
  - apply Z.eqb_eq in Hz. split; [done | by left].
  - apply Z.eqb_neq in Hz. split; [split; [discriminate | done] | by right].
Qed.

Lemma exit_status_reflects_rows_witness :
  let run := main lowercase_address gas_plus_15_percent live_config
               (sample_world 18
                  (λ i, if i =? 1 then smooth_answers 10 6
                        else answers_wait_raises (TimeExhausted "300 seconds") 7))
               (initial_frame ∅) in
  ∃ rows,
    files run.2 !! LOG_FILE live_config = Some ([AuditLogger.header] ++ rows)
    ∧ (1 = 0 ↔ Forall row_passed rows)
    ∧ (1 = 0 ∨ 1 = 1).
Proof.
  refine (exit_status_reflects_rows lowercase_address gas_plus_15_percent
            live_config
            (sample_world 18
               (λ i, if i =? 1 then smooth_answers 10 6
                     else answers_wait_raises (TimeExhausted "300 seconds") 7))
            ∅ 1 _ _).
  - vm_compute; reflexivity.
  - vm_compute. in_list.
Defined.

(** X10: a run makes a call that belongs to a transfer (a fee query, a gas
    estimate, building, signing, a broadcast, a wait, a decode or a prompt
    between transfers) only in live mode, after the ledger was reachable,
    the token reported 18 decimals, the recipients parsed, the token balance
    covered the whole batch, and the operator's answer, stripped, was
    SEND. *)
Theorem transfer_calls_need_preconditions tca gas_with_buffer cfg w fs c :
  let run := main tca gas_with_buffer cfg w (initial_frame fs) in
  c ∈ calls run.2 →
  preamble_call c = false →
  DRY_RUN cfg = false
  ∧ w_is_connected w = Ok true
  ∧ w_decimals w = Ok EXPECTED_DECIMALS
  ∧ (∃ confirm, w_confirm w = Ok confirm ∧ PyStr.strip confirm = "SEND")
  ∧ ∃ all_recipients token_balance,
      parse_recipients tca (RECIPIENTS_RAW cfg) = Ok all_recipients
      ∧ w_balance_of w = Ok token_balance
      ∧ required_units EXPECTED_DECIMALS (apply_skip cfg all_recipients)
        ≤ token_balance.
Proof.
  intros run Hin Hc.
  assert (∀ cs, Forall (λ c, preamble_call c = true) cs → c ∈ cs → False)
    as Hpre.
  { intros cs Hall Hc'. rewrite Forall_forall in Hall.
    specialize (Hall c Hc'). congruence. }
  destruct (main_cases_pre gas_with_buffer cfg w tca fs)
    as [(_ & _ & Hcalls & _)
       |(all_recipients & n & sender & chain_id & cs & b & Hparse & Hdec
         & Hconn & Hbal & Hreq & Hconf & _ & Hcs & H)].
  { destruct (Hpre _ Hcalls Hin). }
  cbv zeta in H. destruct H as [Hrun _]. fold run in Hrun.
  assert (DRY_RUN cfg = false) as Hdry.
  { destruct (DRY_RUN cfg) eqn:Hdry; [|done]. exfalso.
    destruct (transfer_loop_spec gas_with_buffer cfg w sender chain_id
                EXPECTED_DECIMALS
                (Z.of_nat (length (apply_skip cfg all_recipients)))
                (apply_skip cfg all_recipients) 1 (loop_start cfg n cs fs))
      as (rows & _ & _ & _ & _ & _ & Hd).
    destruct (Hd Hdry) as (_ & Hsame & _).
    rewrite Hrun, Hsame in Hin. by apply (Hpre cs). }
  split; [done|]. split; [done|]. split; [done|]. split; [by apply Hconf|].
  by exists all_recipients, b.
Qed.

Lemma transfer_calls_need_preconditions_witness :
  DRY_RUN live_config = false
  ∧ w_is_connected (sample_world 18 (λ _, smooth_answers 10 5)) = Ok true
  ∧ w_decimals (sample_world 18 (λ _, smooth_answers 10 5)) = Ok EXPECTED_DECIMALS
  ∧ (∃ confirm, w_confirm (sample_world 18 (λ _, smooth_answers 10 5)) = Ok confirm
                ∧ PyStr.strip confirm = "SEND")
  ∧ ∃ all_recipients token_balance,
      parse_recipients lowercase_address (RECIPIENTS_RAW live_config)
      = Ok all_recipients
      ∧ w_balance_of (sample_world 18 (λ _, smooth_answers 10 5)) = Ok token_balance
      ∧ required_units EXPECTED_DECIMALS (apply_skip live_config all_recipients)
        ≤ token_balance.
Proof.
  apply (transfer_calls_need_preconditions lowercase_address
           gas_plus_15_percent live_config
           (sample_world 18 (λ _, smooth_answers 10 5)) ∅
           (CSendRawTransaction "0xf86b")).
  - vm_compute. in_list.
  - reflexivity.
Defined.

(** X11: when nothing is left to send (the list is empty, or the skip count
    reaches its length), a run that reads its starting nonce returns 0
    without any call beyond the preamble, and the audit file holds what it
    held before, or the header alone when it was missing. *)
Theorem nothing_left_to_send tca gas_with_buffer cfg w fs all_recipients n :
  let run := main tca gas_with_buffer cfg w (initial_frame fs) in
  parse_recipients tca (RECIPIENTS_RAW cfg) = Ok all_recipients →
  (length all_recipients ≤ Z.to_nat (SKIP_FIRST_N cfg))%nat →
  w_start_nonce w = Ok n →
  CGetTransactionCount ∈ calls run.2 →
  run.1 = Exit 0
  ∧ Forall (λ c, preamble_call c = true) (calls run.2)
  ∧ files run.2 = AuditLogger.enter (LOG_FILE cfg) fs
  ∧ nonce run.2 = n.
Proof.
  intros run Hparse Hlen Hnonce Hcall.
  destruct (main_cases_pre gas_with_buffer cfg w tca fs)
    as [(_ & _ & _ & Hraise)
       |(all' & n' & sender & chain_id & cs & b & Hparse' & _ & _ & _ & _ & _
         & Hn' & Hcs & H)].
  { destruct (Hraise Hcall) as [e He]. congruence. }
  assert (all' = all_recipients) as -> by congruence.
  assert (n' = n) as -> by congruence.
  assert (apply_skip cfg all_recipients = []) as Hnil.
  { unfold apply_skip. destruct (0 <? SKIP_FIRST_N cfg) eqn:Hs.
    - by apply drop_ge.
    - apply Z.ltb_ge in Hs. apply nil_length_inv. lia. }
  cbv zeta in H. rewrite Hnil in H. simpl in H. destruct H as [Hrun Hout].
  fold run in Hrun, Hout. rewrite Hrun, Hout. done.
Qed.

Lemma nothing_left_to_send_witness :
  let run := main lowercase_address gas_plus_15_percent
               {| RPC_URL := RPC_URL live_config;
                  PRIVATE_KEY := PRIVATE_KEY live_config;
                  TOKEN_ADDRESS := TOKEN_ADDRESS live_config;
                  MAX_PRIORITY_FEE_GWEI := None;
                  MAX_FEE_MULTIPLIER := MAX_FEE_MULTIPLIER live_config;
                  DRY_RUN := false;
                  LOG_FILE := LOG_FILE live_config;
                  SKIP_FIRST_N := 2;
                  RECIPIENTS_RAW := RECIPIENTS_RAW live_config |}
               (sample_world 18 (λ _, smooth_answers 10 5)) (initial_frame ∅) in
  run.1 = Exit 0
  ∧ Forall (λ c, preamble_call c = true) (calls run.2)
  ∧ files run.2 = AuditLogger.enter (LOG_FILE live_config) ∅
  ∧ nonce run.2 = 5.
Proof.
  apply (nothing_left_to_send lowercase_address gas_plus_15_percent
           {| RPC_URL := RPC_URL live_config;
              PRIVATE_KEY := PRIVATE_KEY live_config;
              TOKEN_ADDRESS := TOKEN_ADDRESS live_config;
              MAX_PRIORITY_FEE_GWEI := None;
              MAX_FEE_MULTIPLIER := MAX_FEE_MULTIPLIER live_config;
              DRY_RUN := false;
              LOG_FILE := LOG_FILE live_config;
              SKIP_FIRST_N := 2;
              RECIPIENTS_RAW := RECIPIENTS_RAW live_config |}
           (sample_world 18 (λ _, smooth_answers 10 5)) ∅
           [("0x000000000000000000000000000000000000dead", 1000);
            ("0x000000000000000000000000000000000000dead", 2000)] 5).
  - vm_compute; reflexivity.
  - vm_compute. lia.
  - reflexivity.
  - vm_compute. in_list.
Defined.

(** ** Outcomes of live passes *)

Section OutcomeFacts.

Variable gas_with_buffer : Z → Z.
Variable cfg : Config.
Variable w : World.

Lemma iteration_consumes_nonce sender chain_id decimals total i to_addr amt fr :
  DRY_RUN cfg = false →
  consumes_nonce cfg (w_attempt w i) →
  nonce (iteration gas_with_buffer cfg w sender chain_id decimals total i
           (to_addr, amt) fr).2 = nonce fr + 1.
Proof.
  intros Hdry ((ff & Hff) & (u & Hu) & (raw & Hraw) & (h & Hh) & Hwait).
  destruct (iteration_live gas_with_buffer cfg w sender chain_id decimals total
              i to_addr amt fr Hdry) as (_ & _ & _ & _ & _ & _ & Hnonce).
  unfold attempt_result in Hnonce.
  rewrite (pick_fees_result cfg _ (fresh_transfer fr) (initial_frame ∅)),
    Hff, Hu, Hraw, Hh in Hnonce.
  destruct (a_wait_for_receipt (w_attempt w i)) as [rc|[m|m|m]];
    [|simpl in Hnonce; done|done|done].
  unfold after_receipt in Hnonce.
  destruct (rc_status rc =? 1); simpl in Hnonce; done.
Qed.

End OutcomeFacts.

(** X12: in a live loop in which the ledger takes every transfer as far as
    a receipt or a receipt timeout, the nonce grows by exactly 1 per
    recipient: when the loop returns, it is the starting nonce plus the
    number of recipients. *)
Theorem loop_nonce_counts_recipients gas_with_buffer cfg w sender chain_id
    decimals total recipients i fr :
  DRY_RUN cfg = false →
  (∀ j, i ≤ j < i + Z.of_nat (length recipients) →
        consumes_nonce cfg (w_attempt w j)) →
  let lp := transfer_loop gas_with_buffer cfg w sender chain_id decimals total
              i recipients fr in
  lp.1 = Ok tt →
  nonce lp.2 = nonce fr + Z.of_nat (length recipients).
Proof.
  intros Hdry. revert i fr.
  induction recipients as [|r rest IH]; intros i fr Hall lp Hok.
  - subst lp. simpl. lia.
  - subst lp. simpl in Hok |- *. unfold bind in Hok |- *.
    assert (nonce (iteration gas_with_buffer cfg w sender chain_id decimals
                     total i r fr).2 = nonce fr + 1) as Hstep.
    { destruct r as [to_addr amt].
      apply iteration_consumes_nonce; [done|]. apply Hall. simpl length. lia. }
    destruct (iteration gas_with_buffer cfg w sender chain_id decimals total
                i r fr) as [[[]|e] fr1] eqn:Hit; [|done].
    simpl in Hstep. rewrite (IH (i + 1) fr1); [| |exact Hok].
    + rewrite Hstep. simpl length. lia.
    + intros j Hj. apply Hall. simpl length. lia.
Qed.

Lemma loop_nonce_counts_recipients_witness :
  let lp := transfer_loop gas_plus_15_percent live_config
              (sample_world 18 (λ _, smooth_answers 10 5)) SENDER 1 18 2 1
              [("0x000000000000000000000000000000000000dead", 1000);
               ("0x000000000000000000000000000000000000dead", 2000)]
              (set_nonce 5 (initial_frame ∅)) in
  nonce lp.2 = 5 + 2.
Proof.
  refine (loop_nonce_counts_recipients gas_plus_15_percent live_config
            (sample_world 18 (λ _, smooth_answers 10 5)) SENDER 1 18 2
            [("0x000000000000000000000000000000000000dead", 1000);
             ("0x000000000000000000000000000000000000dead", 2000)]
            1 (set_nonce 5 (initial_frame ∅)) _ _ _).
  - reflexivity.
  - intros j _. unfold consumes_nonce. simpl.
    repeat split; by eexists.
  - vm_compute; reflexivity.
Defined.

(** X13: a live pass ends with the status SUCCESS, and adds 1 to
    [succeeded], exactly when the fee query, building, signing and the
    broadcast went through and the receipt came with status 1; a failed gas
    estimate or a failed decoding of the Transfer event changes neither. *)
Theorem success_iff_confirmed gas_with_buffer cfg w sender chain_id decimals
    total i to_addr amt fr :
  DRY_RUN cfg = false →
  let run := iteration gas_with_buffer cfg w sender chain_id decimals total i
               (to_addr, amt) fr in
  (status run.2 = "SUCCESS" ↔ confirmed cfg (w_attempt w i))
  ∧ (succeeded run.2 = succeeded fr + 1 ↔ confirmed cfg (w_attempt w i)).
Proof.
  intros Hdry run.
  destruct (iteration_live gas_with_buffer cfg w sender chain_id decimals total
              i to_addr amt fr Hdry) as (_ & Hsucc & _ & _ & _ & Hstatus & _).
  fold run in Hsucc, Hstatus. rewrite Hsucc, Hstatus. clear Hsucc Hstatus.
  unfold attempt_result, confirmed, after_receipt.
  rewrite (pick_fees_result cfg _ (fresh_transfer fr) (initial_frame ∅)).
  destruct ((pick_fees cfg (w_attempt w i) (initial_frame ∅)).1) as [ff|[]].
  2-4: simpl; split; (split; [intros H; first [discriminate H | lia]
                             | intros ([? ?] & _); discriminate]).
  destruct (a_build_transaction (w_attempt w i)) as [u|[]].
  2-4: simpl; split; (split; [intros H; first [discriminate H | lia]
                             | intros (_ & [? ?] & _); discriminate]).
  destruct (a_sign_transaction (w_attempt w i)) as [raw|[]].
  2-4: simpl; split; (split; [intros H; first [discriminate H | lia]
                             | intros (_ & _ & [? ?] & _); discriminate]).
  destruct (a_send_raw_transaction (w_attempt w i)) as [h|[]].
  2-4: simpl; split; (split; [intros H; first [discriminate H | lia]
                             | intros (_ & _ & _ & [? ?] & _); discriminate]).
  destruct (a_wait_for_receipt (w_attempt w i)) as [rc|[]].
  2-4: simpl; split; (split; [intros H; first [discriminate H | lia]
                             | intros (_ & _ & _ & _ & [? [? _]]); discriminate]).
  destruct (rc_status rc =? 1) eqn:Hrc; simpl.
  - apply Z.eqb_eq in Hrc.
    split; (split; [intros _; repeat split; eauto | done]).
  - apply Z.eqb_neq in Hrc.
    split; (split; [intros H; first [discriminate H | lia]
                   | intros (_ & _ & _ & _ & (rc' & Hrc' & Hone)); congruence]).
Qed.

Lemma success_iff_confirmed_witness :
  let run := iteration gas_plus_15_percent live_config
               (sample_world 18 (λ _, answers_estimate_raises)) SENDER 1 18 1 1
               ("0x000000000000000000000000000000000000dead", 1000)
               (set_nonce 5 (initial_frame ∅)) in
  (status run.2 = "SUCCESS" ↔ confirmed live_config answers_estimate_raises)
  ∧ (succeeded run.2 = 0 + 1 ↔ confirmed live_config answers_estimate_raises).
Proof.
  refine (success_iff_confirmed gas_plus_15_percent live_config
            (sample_world 18 (λ _, answers_estimate_raises)) SENDER 1 18 1 1
            "0x000000000000000000000000000000000000dead" 1000
            (set_nonce 5 (initial_frame ∅)) _).
  reflexivity.
Defined.

(** ** More on the parser *)

Lemma contains_char_lstrip c s :
  PyStr.is_space c = false →
  PyStr.contains_char c (PyStr.lstrip s) = PyStr.contains_char c s.
Proof.
  intros Hc. induction s as [|c' rest IH]; [done|]. simpl.
  destruct (PyStr.is_space c') eqn:Hsp; [|done].
  rewrite IH, bool_decide_eq_false_2; [done|]. congruence.
Qed.

Lemma contains_char_rstrip c s :
  PyStr.is_space c = false →
  PyStr.contains_char c (PyStr.rstrip s) = PyStr.contains_char c s.
Proof.
  intros Hc. induction s as [|c' rest IH]; [done|]. simpl.
  destruct (PyStr.rstrip rest) as [|c'' r] eqn:Hr.
  - simpl in IH. rewrite <- IH.
    destruct (PyStr.is_space c') eqn:Hsp; [|done]. simpl.
    rewrite bool_decide_eq_false_2; [done|]. congruence.
  - simpl. simpl in IH. by rewrite IH.
Qed.

Lemma contains_char_strip c s :
  PyStr.is_space c = false →
  PyStr.contains_char c (PyStr.strip s) = PyStr.contains_char c s.
Proof.
  intros Hc. unfold PyStr.strip.
  by rewrite contains_char_rstrip, contains_char_lstrip.
Qed.

Lemma int_digits_chars s : ∀ acc after_digit n c,
  PyStr.int_digits s acc after_digit = Some n →
  PyStr.contains_char c s = true →
  PyStr.is_digit c = true ∨ c = "_"%char.
Proof.
  induction s as [|c' rest IH]; intros acc b n c Hint Hc; [done|].
  simpl in Hint, Hc. apply orb_true_iff in Hc as [Hc|Hc].
  - apply bool_decide_eq_true in Hc. subst c'.
    destruct (PyStr.is_digit c); [by left|].
    destruct (bool_decide (c = "_"%char)) eqn:Hu; [|done].
    right. by apply bool_decide_eq_true in Hu.
  - destruct (PyStr.is_digit c'); [by eapply IH|].
    destruct (bool_decide (c' = "_"%char) && b); [by eapply IH | done].
Qed.

(** What [int()] accepts holds digits, underscores and a sign only, apart
    from surrounding whitespace. *)
Lemma int_of_string_chars s n c :
  PyStr.int_of_string s = Some n →
  PyStr.contains_char c s = true →
  PyStr.is_space c = false →
  PyStr.is_digit c = true ∨ c = "_"%char ∨ c = "+"%char ∨ c = "-"%char.
Proof.
  intros Hint Hc Hsp. rewrite <- (contains_char_strip c s Hsp) in Hc.
  unfold PyStr.int_of_string in Hint.
  destruct (PyStr.strip s) as [|c0 rest]; [done|].
  simpl in Hc. apply orb_true_iff in Hc as [Hc|Hc].
  - apply bool_decide_eq_true in Hc. subst c0.
    destruct (bool_decide (c = "-"%char)) eqn:Hm;
      [apply bool_decide_eq_true in Hm; tauto|].
    destruct (bool_decide (c = "+"%char)) eqn:Hp;
      [apply bool_decide_eq_true in Hp; tauto|].
    assert (PyStr.contains_char c (String c rest) = true) as Hin
      by (simpl; by rewrite bool_decide_eq_true_2).
    destruct (int_digits_chars _ _ _ _ _ Hint Hin); tauto.
  - destruct (bool_decide (c0 = "-"%char)).
    { destruct (PyStr.int_digits rest 0 false) as [m|] eqn:Hd; [|done].
      destruct (int_digits_chars _ _ _ _ _ Hd Hc); tauto. }
    destruct (bool_decide (c0 = "+"%char)).
    { destruct (int_digits_chars _ _ _ _ _ Hint Hc); tauto. }
    assert (PyStr.contains_char c (String c0 rest) = true) as Hin
      by (simpl; rewrite Hc; by destruct (bool_decide (c0 = c))).
    destruct (int_digits_chars _ _ _ _ _ Hint Hin); tauto.
Qed.

(** X14: the line is split at its first comma only, and the amount is what
    [int()] reads: a data line whose amount field holds a character other
    than a digit, an underscore or a sign (a second comma as in 1,000, a
    decimal point, a comment sign) makes the whole text fail, whatever the
    other lines are. *)
Theorem stray_character_in_amount_fails tca raw (i : nat) line c :
  PyStr.splitlines raw !! i = Some line →
  data_line line →
  has_comma line →
  PyStr.contains_char c (amount_field line) = true →
  PyStr.is_space c = false →
  PyStr.is_digit c = false →
  c ≠ "_"%char → c ≠ "+"%char → c ≠ "-"%char →
  ∃ e, parse_recipients tca raw = Raise e.
Proof.
  intros Hi Hdata Hcomma Hc Hsp Hdig Hu Hp Hm.
  assert (PyStr.int_of_string (amount_field line) = None) as Hint.
  { destruct (PyStr.int_of_string (amount_field line)) as [n|] eqn:Hint; [|done].
    destruct (int_of_string_chars _ _ _ Hint Hc Hsp) as [?|[?|[?|?]]];
      congruence. }
  assert (∃ e, offends tca (1 + Z.of_nat i) line e) as [e Hoff].
  { destruct (checksum_with_fallback tca (address_field line)) eqn:Haddr.
    - eexists. apply offends_literal; eauto.
    - eexists. by apply offends_address. }
  destruct (parse_recipients tca raw) as [out|e'] eqn:Hparse; [|by exists e'].
  destruct (parse_loop_ok_clean tca _ _ _ _ Hparse i line e Hi Hoff).
Qed.

Lemma stray_character_in_amount_fails_witness :
  ∃ e, parse_recipients lowercase_address
         "0x000000000000000000000000000000000000dead, 1,000" = Raise e.
Proof.
  refine (stray_character_in_amount_fails lowercase_address
            "0x000000000000000000000000000000000000dead, 1,000" 0
            "0x000000000000000000000000000000000000dead, 1,000" ","%char
            _ _ _ _ _ _ _ _ _);
    first [ by vm_compute | split; by vm_compute ].
Defined.

(** X15: a text whose lines are all empty, blank or comments (a [#] after
    optional whitespace) parses to the empty list, whatever follows the
    [#] and whatever the address conversion would say; so does the empty
    text. *)
Theorem comments_and_blanks_parse_to_nothing tca raw :
  Forall (λ line, ¬ data_line line) (PyStr.splitlines raw) →
  parse_recipients tca raw = Ok [].
Proof.
  unfold parse_recipients. generalize 1. generalize (@nil Recipient).
  induction (PyStr.splitlines raw) as [|line rest IH]; intros out idx Hall;
    [done|].
  apply Forall_cons in Hall as [Hline Hrest]. simpl.
  assert (parse_line tca idx line = Skipped) as ->; [|by apply IH].
  unfold parse_line, data_line in *.
  destruct (bool_decide (PyStr.strip line = "")) eqn:Hempty; [done|].
  destruct (PyStr.startswith_char "#" (PyStr.strip line)) eqn:Hhash; [done|].
  apply bool_decide_eq_false in Hempty. by destruct Hline.
Qed.

Lemma comments_and_blanks_parse_to_nothing_witness :
  parse_recipients lowercase_address
    ("# paid in round 1" +:+ LF +:+ "   " +:+ LF +:+ "  # 0xdead, -5, oops")
  = Ok [].
Proof.
  apply comments_and_blanks_parse_to_nothing.
  vm_compute. repeat constructor; intros [H1 H2]; first [by apply H1 | discriminate].
Defined.

(** ** Runs that go through *)

Section ThroughFacts.

Variable gas_with_buffer : Z → Z.
Variable cfg : Config.
Variable w : World.

(** What a live pass returns: only the query of the pending count and the
    prompt can make it raise. *)
Lemma iteration_live_returns sender chain_id decimals total i to_addr amt fr :
  DRY_RUN cfg = false →
  let a := w_attempt w i in
  let run := iteration gas_with_buffer cfg w sender chain_id decimals total
               i (to_addr, amt) fr in
  match run.1 with
  | Ok _ => True
  | Raise e => a_get_transaction_count a = Raise e ∨ a_press_enter a = Raise e
  end.
Proof.
  intros Hdry a run. subst run. unfold iteration. rewrite Hdry. fold a.
  destruct (guarded_attempt gas_with_buffer cfg a sender to_addr
              (token_units amt decimals) chain_id (fresh_transfer fr))
    as [cs Hg].
  set (fr1 := attempt_result cfg a (fresh_transfer fr)) in *. clearbody fr1.
  unfold audit_log, nonce_handling. unfold bind, modify, read, call, ret.
  cbv beta iota. fold (fresh_transfer fr). rewrite Hg. cbv beta iota.
  destruct (bool_decide _ && bool_decide _).
  - destruct (0 <? total - i); [destruct (a_press_enter a)|]; simpl; tauto.
  - destruct (a_get_transaction_count a) as [n|e]; cbv beta iota;
      [destruct (0 <? total - i); [destruct (a_press_enter a)|]|]; simpl; tauto.
Qed.

Lemma dry_pass_keeps_counters sender chain_id decimals total i r fr :
  DRY_RUN cfg = true →
  let run := iteration gas_with_buffer cfg w sender chain_id decimals total
               i r fr in
  succeeded run.2 = succeeded fr ∧ failed run.2 = failed fr.
Proof.
  intros Hdry run. destruct r as [to_addr amt]. subst run.
  unfold iteration. rewrite Hdry. done.
Qed.

End ThroughFacts.

(** X16: no exception of the fee query, the gas estimate, building, signing,
    the broadcast, the wait for the receipt or the decoding of the event
    leaves the loop: when the queries of the pending count and the prompts
    between transfers answer, the loop returns after a pass for every
    recipient, whatever else the ledger does, and has written one row for
    each. *)
Theorem loop_survives_transfer_errors gas_with_buffer cfg w sender chain_id
    decimals total recipients i fr :
  (∀ j, i ≤ j < i + Z.of_nat (length recipients) →
        (∃ n, a_get_transaction_count (w_attempt w j) = Ok n)
        ∧ (∃ s, a_press_enter (w_attempt w j) = Ok s)) →
  let lp := transfer_loop gas_with_buffer cfg w sender chain_id decimals total
              i recipients fr in
  lp.1 = Ok tt
  ∧ ∃ rows, files lp.2 = append_rows (LOG_FILE cfg) rows (files fr)
            ∧ length rows = length recipients.
Proof.
  intros Hall lp.
  assert (lp.1 = Ok tt) as Hok.
  { subst lp. revert i fr Hall.
    induction recipients as [|r rest IH]; intros i fr Hall; [done|].
    simpl. unfold bind.
    assert (match (iteration gas_with_buffer cfg w sender chain_id decimals
                     total i r fr).1 with
            | Ok _ => True
            | Raise _ => False
            end) as Hpass.
    { destruct (DRY_RUN cfg) eqn:Hdry.
      - destruct (iteration_spec gas_with_buffer cfg w sender chain_id decimals
                    total i r fr) as (_ & _ & _ & _ & Hd).
        by destruct (Hd Hdry) as (-> & _).
      - destruct r as [to_addr amt].
        pose proof (iteration_live_returns gas_with_buffer cfg w sender
                      chain_id decimals total i to_addr amt fr Hdry) as Hret.
        cbv zeta in Hret.
        destruct (Hall i) as [[n Hn] [s Hs]]; [simpl length; lia|].
        destruct ((iteration gas_with_buffer cfg w sender chain_id decimals
                     total i (to_addr, amt) fr).1); [done|].
        destruct Hret; congruence. }
    destruct (iteration gas_with_buffer cfg w sender chain_id decimals total
                i r fr) as [[[]|e] fr1]; [|done].
    apply IH. intros j Hj. apply Hall. simpl length. lia. }
  split; [exact Hok|].
  destruct (transfer_loop_spec gas_with_buffer cfg w sender chain_id decimals
              total recipients i fr) as (rows & Hfiles & _ & _ & _ & Hlen & _).
  exists rows. split; [exact Hfiles | by apply Hlen].
Qed.

Lemma loop_survives_transfer_errors_witness :
  let lp := transfer_loop gas_plus_15_percent live_config
              (sample_world 18 (λ _, answers_fee_query_down)) SENDER 1 18 2 1
              [("0x000000000000000000000000000000000000dead", 1000);
               ("0x000000000000000000000000000000000000dead", 2000)]
              (set_nonce 5 (initial_frame ∅)) in
  (failed lp.2 = 2 ∧ succeeded lp.2 = 0)
  ∧ lp.1 = Ok tt
  ∧ ∃ rows, files lp.2
            = append_rows (LOG_FILE live_config) rows
                (files (set_nonce 5 (initial_frame ∅)))
            ∧ length rows = 2%nat.
Proof.
  split; [vm_compute; split; reflexivity|].
  refine (loop_survives_transfer_errors gas_plus_15_percent live_config
            (sample_world 18 (λ _, answers_fee_query_down)) SENDER 1 18 2
            [("0x000000000000000000000000000000000000dead", 1000);
             ("0x000000000000000000000000000000000000dead", 2000)]
            1 (set_nonce 5 (initial_frame ∅)) _).
  intros j _. simpl. split; by eexists.
Defined.

(** ** The summary of a dry run *)

Lemma dry_loop_keeps_counters gas_with_buffer cfg w sender chain_id decimals
    total recipients :
  DRY_RUN cfg = true →
  ∀ i fr,
    let lp := transfer_loop gas_with_buffer cfg w sender chain_id decimals
                total i recipients fr in
    succeeded lp.2 = succeeded fr ∧ failed lp.2 = failed fr.
Proof.
  intros Hdry.
  induction recipients as [|r rest IH]; intros i fr lp; [done|].
  subst lp. simpl. unfold bind.
  destruct (dry_pass_keeps_counters gas_with_buffer cfg w sender chain_id
              decimals total i r fr Hdry) as [Hs Hf].
  destruct (iteration gas_with_buffer cfg w sender chain_id decimals total
              i r fr) as [[[]|e] fr1]; simpl in Hs, Hf; [|done].
  destruct (IH (i + 1) fr1) as [Hs' Hf']. split; congruence.
Qed.

(** X17: a dry run that got as far as reading its starting nonce cannot
    fail: it returns 0, its summary counts no transfer as sent and none as
    failed, every recipient left after the skip is counted as skipped, and
    the nonce it would continue from is the starting nonce plus their
    number. *)
Theorem dry_run_summary tca gas_with_buffer cfg w fs n :
  DRY_RUN cfg = true →
  let run := main tca gas_with_buffer cfg w (initial_frame fs) in
  CGetTransactionCount ∈ calls run.2 →
  w_start_nonce w = Ok n →
  run.1 = Exit 0
  ∧ succeeded run.2 = 0 ∧ failed run.2 = 0
  ∧ ∃ all_recipients,
      parse_recipients tca (RECIPIENTS_RAW cfg) = Ok all_recipients
      ∧ skipped run.2 = Z.of_nat (length (apply_skip cfg all_recipients))
      ∧ nonce run.2 = n + Z.of_nat (length (apply_skip cfg all_recipients)).
Proof.
  intros Hdry run Hin Hn. subst run.
  destruct (main_cases_pre gas_with_buffer cfg w tca fs)
    as [(_ & _ & _ & Hraise)
       |(all_recipients & n' & sender & chain_id & cs & bal & Hparse & _ & _
         & _ & _ & _ & Hn' & _ & H)].
  { destruct (Hraise Hin) as [e He]. congruence. }
  cbv zeta in H. destruct H as [Hfr Hres].
  destruct (transfer_loop_spec gas_with_buffer cfg w sender chain_id
              EXPECTED_DECIMALS
              (Z.of_nat (length (apply_skip cfg all_recipients)))
              (apply_skip cfg all_recipients) 1 (loop_start cfg n' cs fs))
    as (rows & _ & _ & _ & _ & _ & Hd).
  destruct (Hd Hdry) as (Hok & _ & Hnonce & Hskip).
  destruct (dry_loop_keeps_counters gas_with_buffer cfg w sender chain_id
              EXPECTED_DECIMALS
              (Z.of_nat (length (apply_skip cfg all_recipients)))
              (apply_skip cfg all_recipients) Hdry 1 (loop_start cfg n' cs fs))
    as [Hs Hf].
  rewrite Hres, Hfr, Hok, Hs, Hf, Hskip, Hnonce.
  assert (n' = n) as -> by congruence.
  split; [done|]. split; [done|]. split; [done|].
  exists all_recipients. split; [done|]. split; [simpl; lia|done].
Qed.

Lemma dry_run_summary_witness :
  let run := main lowercase_address gas_plus_15_percent dry_config
               (sample_world 18 (λ _, answers_fee_query_down))
               (initial_frame ∅) in
  run.1 = Exit 0
  ∧ succeeded run.2 = 0 ∧ failed run.2 = 0
  ∧ ∃ all_recipients,
      parse_recipients lowercase_address (RECIPIENTS_RAW dry_config)
      = Ok all_recipients
      ∧ skipped run.2 = Z.of_nat (length (apply_skip dry_config all_recipients))
      ∧ nonce run.2
        = 5 + Z.of_nat (length (apply_skip dry_config all_recipients)).
Proof.
  refine (dry_run_summary lowercase_address gas_plus_15_percent dry_config
            (sample_world 18 (λ _, answers_fee_query_down)) ∅ 5 _ _ _).
  - reflexivity.
  - vm_compute. in_list.
  - reflexivity.
Defined.
